(** * AIOps log anomaly detector: a shallow embedding and its properties

    The program under study is [aiops_log_anomaly_detector.py]: it reads a log
    file, parses each line into a row of a pandas [DataFrame], derives two
    numeric features per row, hands them to scikit-learn's [IsolationForest]
    and prints the rows that were flagged.

    Python objects are modelled as follows.
    - [str] is [string]; one [ascii] stands for one character.
    - A [DataFrame] is an ordered association list from column names to
      columns of dynamically typed cells.  Row labels are left out: every
      series the program assigns to a frame is computed from a column of that
      same frame, so the assignment is positional.
    - [DataFrame] objects live in a heap and are passed by reference, so that
      the in-place updates of the program are visible.
    - Exceptions, [sys.exit] included, are values of [exn]; a computation is a
      function from the world to a result and the world it leaves behind.
    - pandas' [to_datetime] and scikit-learn's [IsolationForest] are external
      libraries: they are operations of the classes [Pandas] and [Sklearn]. *)

From Stdlib Require Import ZArith QArith Qround Ascii String List Lia Permutation Sorted.
From stdpp Require Import base option list strings gmap.

Local Open Scope string_scope.

(** ** Python strings *)

Module PyStr.

(** [str.isspace] on the characters below 256. *)
Definition is_space (c : ascii) : bool :=
  let n := nat_of_ascii c in
  (((9 <=? n) && (n <=? 13)) || ((28 <=? n) && (n <=? 32))
   || (n =? 133) || (n =? 160))%nat.

Fixpoint lstrip (s : string) : string :=
  match s with
  | EmptyString => EmptyString
  | String c r => if is_space c then lstrip r else s
  end.

Fixpoint rstrip (s : string) : string :=
  match s with
  | EmptyString => EmptyString
  | String c r =>
      match rstrip r with
      | EmptyString => if is_space c then EmptyString else String c EmptyString
      | r' => String c r'
      end
  end.

(** [s.strip()]: whitespace is removed at both ends. *)
Definition strip (s : string) : string := rstrip (lstrip s).

(** [s.partition(" ")], with [None] when [s] holds no space. *)
Fixpoint partition_space (s : string) : option (string * string) :=
  match s with
  | EmptyString => None
  | String c r =>
      if Ascii.eqb c " "%char then Some (EmptyString, r)
      else match partition_space r with
           | Some (a, b) => Some (String c a, b)
           | None => None
           end
  end.

(** [s.split(" ", maxsplit)]. *)
Fixpoint split (maxsplit : nat) (s : string) : list string :=
  match maxsplit with
  | O => [s]
  | S m =>
      match partition_space s with
      | None => [s]
      | Some (a, b) => a :: split m b
      end
  end.

(** [s.split(" ")], without a bound on the number of cuts. *)
Definition split_all (s : string) : list string := split (String.length s) s.

(** The newline character of ["\n"]. *)
Definition nl : string := String (ascii_of_nat 10) EmptyString.

(** *** Notions used to state what [strip] and [split] do *)

(** The pieces of a split, put together again with single spaces. *)
Fixpoint join_space (parts : list string) : string :=
  match parts with
  | [] => EmptyString
  | [p] => p
  | p :: rest => p ++ " " ++ join_space rest
  end.

Fixpoint count_space (s : string) : nat :=
  match s with
  | EmptyString => 0
  | String c r =>
      if Ascii.eqb c " "%char then S (count_space r) else count_space r
  end.

Definition all_space (s : string) : Prop :=
  forall c, In c (list_ascii_of_string s) -> is_space c = true.

Fixpoint last_char (s : string) : option ascii :=
  match s with
  | EmptyString => None
  | String c EmptyString => Some c
  | String _ r => last_char r
  end.

End PyStr.

(** ** Exceptions *)

Inductive exn : Type :=
  | SystemExit (code : Z)
  | KeyError (key : string)
  | TypeError (msg : string)
  | ValueError (msg : string)
  | LibraryError (msg : string).

Inductive result (A : Type) : Type :=
  | Ok (a : A)
  | Raise (e : exn).
Arguments Ok {A} a.
Arguments Raise {A} e.

Definition is_ok {A} (r : result A) : bool :=
  match r with Ok _ => true | Raise _ => false end.

(** ** Data frames *)

(** A [pandas.Timestamp] is a count of nanoseconds. *)
Definition Timestamp : Type := Z.

Inductive value : Type :=
  | VStr (s : string)
  | VNum (z : Z)            (* int64, or a float64 holding an integer *)
  | VTime (t : Timestamp)
  | VNull.                  (* NaN, NaT, None *)

Definition value_eqb (a b : value) : bool :=
  match a, b with
  | VStr s, VStr t => String.eqb s t
  | VNum x, VNum y => Z.eqb x y
  | VTime x, VTime y => Z.eqb x y
  | _, _ => false           (* a null cell equals nothing *)
  end.

Definition isna (v : value) : bool :=
  match v with VNull => true | _ => false end.

Definition Series : Type := list value.
Definition DataFrame : Type := list (string * Series).

Module Frame.

Definition col_names (df : DataFrame) : list string := map fst df.

Definition nrows (df : DataFrame) : nat :=
  match df with
  | [] => 0
  | (_, s) :: _ => length s
  end.

(** [df.empty]: some axis has length zero. *)
Definition empty (df : DataFrame) : bool :=
  ((length df =? 0) || (nrows df =? 0))%nat.

Fixpoint get_col (df : DataFrame) (name : string) : option Series :=
  match df with
  | [] => None
  | (n, s) :: rest => if String.eqb n name then Some s else get_col rest name
  end.

(** The column [name] is replaced where it stands, or added as the last
    column when the frame has none of that name. *)
Fixpoint set_col (df : DataFrame) (name : string) (s : Series) : DataFrame :=
  match df with
  | [] => [(name, s)]
  | (n, c) :: rest =>
      if String.eqb n name then (n, s) :: rest
      else (n, c) :: set_col rest name s
  end.

(** Rows are kept where the mask holds [true]. *)
Fixpoint select {A} (mask : list bool) (l : list A) : list A :=
  match mask, l with
  | b :: mask', x :: l' =>
      if b then x :: select mask' l' else select mask' l'
  | _, _ => []
  end.

Definition select_rows (mask : list bool) (df : DataFrame) : DataFrame :=
  map (fun '(n, s) => (n, select mask s)) df.

(** [pd.DataFrame(data, columns=names)] for a list of rows. *)
Definition of_rows (names : list string) (data : list (list value))
  : option DataFrame :=
  if forallb (fun row => (length row =? length names)%nat) data
  then Some (map (fun '(j, n) => (n, map (fun row => nth j row VNull) data))
               (combine (seq 0 (length names)) names))
  else None.

(** The [i]-th row, as the list of its cells in column order. *)
Definition row (df : DataFrame) (i : nat) : list value :=
  map (fun '(_, s) => nth i s VNull) df.

(** Every column has as many cells as the frame has rows. *)
Definition wf (df : DataFrame) : Prop :=
  Forall (fun '(_, s) => length s = nrows df) df.

End Frame.

(** [Series.map(d)] for a dict [d] with string keys: a cell that is no key
    becomes NaN. *)
Definition Series_map (d : gmap string Z) (s : Series) : Series :=
  map (fun v => match v with
                | VStr k => match d !! k with Some z => VNum z | None => VNull end
                | _ => VNull
                end) s.

Definition fillna (v0 : value) (s : Series) : Series :=
  map (fun v => if isna v then v0 else v) s.

(** [len(x)]: defined on strings, a [TypeError] on numbers, timestamps, NaN. *)
Definition py_len (v : value) : result value :=
  match v with
  | VStr s => Ok (VNum (Z.of_nat (String.length s)))
  | _ => Raise (TypeError "object has no len()")
  end.

(** [Series.apply(f)] for an [f] that may raise. *)
Fixpoint Series_apply (f : value -> result value) (s : Series) : result Series :=
  match s with
  | [] => Ok []
  | v :: s' =>
      match f v with
      | Raise e => Raise e
      | Ok v' => match Series_apply f s' with
                 | Raise e => Raise e
                 | Ok r => Ok (v' :: r)
                 end
      end
  end.

(** The level table, entry by entry. *)
Definition expected_level_score (level : string) : Z :=
  if String.eqb level "INFO" then 1
  else if String.eqb level "WARNING" then 2
  else if String.eqb level "ERROR" then 3
  else if String.eqb level "CRITICAL" then 4
  else 0.

(** [s * n] *)
Fixpoint str_mul (s : string) (n : nat) : string :=
  match n with
  | O => EmptyString
  | S k => s ++ str_mul s k
  end.

(** Every cell is a number. *)
Definition numeric (s : Series) : Prop :=
  Forall (fun v => exists z, v = VNum z) s.

(** The column names after an assignment to the column [n]. *)
Definition add_name (names : list string) (n : string) : list string :=
  if existsb (String.eqb n) names then names else (names ++ [n])%list.

(** ** External libraries *)

(** [pd.to_datetime(series, errors="coerce")]: the whole column is converted
    at once; a cell that cannot be read as a timestamp becomes NaT. *)
Class Pandas : Type := {
  to_datetime_coerce : Series -> Series
}.

(** The arguments of the [IsolationForest] constructor that the program sets.
    [random_state = None] makes the estimator draw from NumPy's global
    generator. *)
Record IsolationForest : Type := {
  contamination : Q;
  random_state : option Z
}.

(** [IsolationForest.fit_predict(X)]: the predictions, one integer per row,
    or the exception raised; the state of NumPy's global generator is read
    and left changed or not. *)
Class Sklearn : Type := {
  RandomState : Type;
  IsolationForest_fit_predict :
    IsolationForest -> RandomState -> DataFrame -> result (list Z) * RandomState
}.

(** ** The world and the computations that act on it *)

Definition loc : Type := nat.

(** What [open(path, "r")] followed by [readlines()] brings. *)
Inductive file_read : Type :=
  | ReadLines (lines : list string)
  | NotFound                        (* FileNotFoundError *)
  | ReadError (msg : string).       (* any other Exception, with its text *)

(** One argument of a [print] call. *)
Inductive printed : Type :=
  | PStr (s : string)
  | PFrame (df : DataFrame).

Section Program.

Context `{!Pandas} `{!Sklearn}.

Record world : Type := World {
  heap : gmap loc DataFrame;
  stdout : list (list printed);     (* one entry per [print] call *)
  np_random : RandomState;
  files : string -> file_read
}.

Definition M (A : Type) : Type := world -> result A * world.

Definition ret {A} (a : A) : M A := fun w => (Ok a, w).

Definition raise {A} (e : exn) : M A := fun w => (Raise e, w).

(** An exception leaves the world as it was when it was raised. *)
Definition bind {A B} (m : M A) (k : A -> M B) : M B :=
  fun w =>
    match m w with
    | (Ok a, w') => k a w'
    | (Raise e, w') => (Raise e, w')
    end.

Definition lift {A} (r : result A) : M A := fun w => (r, w).

Notation "x <- m ;; k" := (bind m (fun x => k))
  (at level 100, m at next level, right associativity).
Notation "m ;;; k" := (bind m (fun _ => k))
  (at level 100, right associativity).

Definition with_heap (h : gmap loc DataFrame) (w : world) : world :=
  {| heap := h; stdout := stdout w; np_random := np_random w; files := files w |}.

Definition with_stdout (o : list (list printed)) (w : world) : world :=
  {| heap := heap w; stdout := o; np_random := np_random w; files := files w |}.

Definition with_np_random (g : RandomState) (w : world) : world :=
  {| heap := heap w; stdout := stdout w; np_random := g; files := files w |}.

(** A new object, at an address no object has. *)
Definition alloc (df : DataFrame) : M loc :=
  fun w =>
    let l := fresh (dom (heap w)) in
    (Ok l, with_heap (<[l := df]> (heap w)) w).

Definition load (r : loc) : M DataFrame :=
  fun w =>
    match heap w !! r with
    | Some df => (Ok df, w)
    | None => (Raise (ValueError "no such object"), w)
    end.

Definition store (r : loc) (df : DataFrame) : M unit :=
  fun w => (Ok tt, with_heap (<[r := df]> (heap w)) w).

(** One call of [print], with its arguments. *)
Definition print (args : list printed) : M unit :=
  fun w => (Ok tt, with_stdout (stdout w ++ [args]) w).

(** [sys.exit(code)] *)
Definition sys_exit {A} (code : Z) : M A := raise (SystemExit code).

(** [df[name]] *)
Definition getitem (df : loc) (name : string) : M Series :=
  d <- load df ;;
  match Frame.get_col d name with
  | Some s => ret s
  | None => raise (KeyError name)
  end.

(** [df[[name1; ...]]]: a frame of its own with the columns asked for. *)
Fixpoint getitems (df : loc) (names : list string) : M DataFrame :=
  match names with
  | [] => ret []
  | n :: rest =>
      s <- getitem df n ;;
      d <- getitems df rest ;;
      ret ((n, s) :: d)
  end.

(** [df[name] = values], in place.  A frame that has columns takes only
    values of its own length. *)
Definition setitem (df : loc) (name : string) (values : Series) : M unit :=
  d <- load df ;;
  if ((length d =? 0) || (length values =? Frame.nrows d))%nat
  then store df (Frame.set_col d name values)
  else raise (ValueError "Length of values does not match length of index").

(** [pd.DataFrame(data, columns=names)] *)
Definition DataFrame_new (data : list (list value)) (names : list string) : M loc :=
  match Frame.of_rows names data with
  | Some d => alloc d
  | None => raise (ValueError "columns passed do not match the data")
  end.

(** [df.dropna(subset=[name])]: a new frame with the rows whose cell in
    [name] is not null. *)
Definition dropna (df : loc) (name : string) : M loc :=
  s <- getitem df name ;;
  d <- load df ;;
  alloc (Frame.select_rows (map (fun v => negb (isna v)) s) d).

(** [df[df[name] == v]]: a new frame with the rows whose cell in [name]
    equals [v]. *)
Definition filter_eq (df : loc) (name : string) (v : value) : M loc :=
  s <- getitem df name ;;
  d <- load df ;;
  alloc (Frame.select_rows (map (fun x => value_eqb x v) s) d).

(** [df.empty] *)
Definition df_empty (df : loc) : M bool :=
  d <- load df ;; ret (Frame.empty d).

(** [model.fit_predict(X)] *)
Definition fit_predict (model : IsolationForest) (X : DataFrame) : M (list Z) :=
  fun w =>
    let '(r, g) := IsolationForest_fit_predict model (np_random w) X in
    (r, with_np_random g w).

(** *** The program *)

Definition read_logs (file_path : string) : M (list string) :=
  fun w =>
    match files w file_path with
    | ReadLines logs => ret logs w
    | NotFound =>
        (print [PStr ("Error: The file '" ++ file_path ++ "' was not found.")] ;;;
         sys_exit 1) w
    | ReadError e =>
        (print [PStr ("Error reading file '" ++ file_path ++ "': " ++ e)] ;;;
         sys_exit 1) w
    end.

(** The body of the [for] loop of [parse_logs], for one line. *)
Definition parse_step (data : list (list value)) (log : string)
  : list (list value) :=
  let parts := PyStr.split 3 (PyStr.strip log) in
  if (length parts <? 4)%nat then data
  else
    let timestamp_str := nth 0 parts "" ++ " " ++ nth 1 parts "" in
    let level := nth 2 parts "" in
    let message := nth 3 parts "" in
    data ++ [[VStr timestamp_str; VStr level; VStr message]].

Definition parse_logs (logs : list string) : M loc :=
  let data := fold_left parse_step logs [] in
  df <- DataFrame_new data ["timestamp"; "level"; "message"] ;;
  ts <- getitem df "timestamp" ;;
  setitem df "timestamp" (to_datetime_coerce ts) ;;;
  df <- dropna df "timestamp" ;;
  ret df.

Definition level_mapping : gmap string Z :=
  <["INFO" := 1%Z]> (<["WARNING" := 2%Z]> (<["ERROR" := 3%Z]>
    (<["CRITICAL" := 4%Z]> ∅))).

Definition feature_engineering (df : loc) : M loc :=
  level <- getitem df "level" ;;
  setitem df "level_score" (fillna (VNum 0) (Series_map level_mapping level)) ;;;
  message <- getitem df "message" ;;
  lengths <- lift (Series_apply py_len message) ;;
  setitem df "message_length" lengths ;;;
  ret df.

Definition ANOMALY : string := "‚ùå Anomaly".
Definition NORMAL : string := "‚úÖ Normal".

(** [lambda x: ANOMALY if x == -1 else NORMAL] *)
Definition readable (x : value) : value :=
  if value_eqb x (VNum (-1)) then VStr ANOMALY else VStr NORMAL.

Definition detect_anomalies (df : loc) (contamination : Q) : M loc :=
  let model := {| contamination := contamination; random_state := Some 42%Z |} in
  X <- getitems df ["level_score"; "message_length"] ;;
  predictions <- fit_predict model X ;;
  setitem df "anomaly" (map VNum predictions) ;;;
  anomaly <- getitem df "anomaly" ;;
  setitem df "is_anomaly" (map readable anomaly) ;;;
  ret df.

Definition main (file_path : string) : M unit :=
  logs <- read_logs file_path ;;
  df <- parse_logs logs ;;
  e <- df_empty df ;;
  (if e : bool then print [PStr "No valid log entries found."] ;;; sys_exit 0
   else ret tt) ;;;
  df <- feature_engineering df ;;
  df <- detect_anomalies df (1 # 10) ;;
  anomalies <- filter_eq df "is_anomaly" (VStr ANOMALY) ;;
  e <- df_empty anomalies ;;
  if e : bool then print [PStr (PyStr.nl ++ "üîç No anomalies detected.")]
  else
    a <- load anomalies ;;
    print [PStr (PyStr.nl ++ "üîç **Detected Anomalies:**" ++ PyStr.nl); PFrame a].

(** *** What the stages compute, as functions of their input *)

Definition column (j : nat) (data : list (list value)) : Series :=
  map (fun row => nth j row VNull) data.

(** The rows that the loop of [parse_logs] collects. *)
Definition rows_of (logs : list string) : list (list value) :=
  fold_left parse_step logs [].

(** The rows that one line contributes: one or none. *)
Definition row_of (log : string) : list (list value) :=
  parse_step [] log.

(** The [j]-th field of a line, and the lines that have four fields. *)
Definition field (j : nat) (log : string) : string :=
  nth j (PyStr.split 3 (PyStr.strip log)) "".

Definition well_formed (log : string) : Prop :=
  length (PyStr.split 3 (PyStr.strip log)) = 4.

Definition timestamp_str (log : string) : string :=
  field 0 log ++ " " ++ field 1 log.

(** The test of the loop of [parse_logs] on a line, and the row the loop
    appends for a line that passes it. *)
Definition has_four_fields (log : string) : bool :=
  negb (length (PyStr.split 3 (PyStr.strip log)) <? 4)%nat.

Definition record_of (log : string) : list value :=
  [VStr (timestamp_str log); VStr (field 2 log); VStr (field 3 log)].

(** The timestamp column after the conversion. *)
Definition coerced (logs : list string) : Series :=
  to_datetime_coerce (column 0 (rows_of logs)).

Definition coerced_frame (logs : list string) : DataFrame :=
  [ ("timestamp", coerced logs);
    ("level", column 1 (rows_of logs));
    ("message", column 2 (rows_of logs)) ].

(** The conversion gives one cell for each cell it is given. *)
Definition length_preserving : Prop :=
  forall s : Series, length (to_datetime_coerce s) = length s.

(** The rows that [dropna] keeps. *)
Definition survivors (logs : list string) : list bool :=
  map (fun v => negb (isna v)) (coerced logs).

(** The text of a string cell. *)
Definition text (v : value) : string :=
  match v with VStr s => s | _ => "" end.

(** The levels and the messages of the rows that [dropna] keeps. *)
Definition kept_levels (logs : list string) : list string :=
  map text (Frame.select (survivors logs) (column 1 (rows_of logs))).

Definition kept_messages (logs : list string) : list string :=
  map text (Frame.select (survivors logs) (column 2 (rows_of logs))).

(** The frame that [parse_logs] returns. *)
Definition parsed_frame (logs : list string) : DataFrame :=
  [ ("timestamp", Frame.select (survivors logs) (coerced logs));
    ("level", map VStr (kept_levels logs));
    ("message", map VStr (kept_messages logs)) ].

(** The two columns that [feature_engineering] adds. *)
Definition level_scores (levels : list string) : Series :=
  map (fun l => VNum (expected_level_score l)) levels.

Definition message_lengths (messages : list string) : Series :=
  map (fun m => VNum (Z.of_nat (String.length m))) messages.

(** The matrix that [detect_anomalies] hands to the estimator. *)
Definition features (logs : list string) : DataFrame :=
  [ ("level_score", level_scores (kept_levels logs));
    ("message_length", message_lengths (kept_messages logs)) ].

(** The frame at the end of the three stages, for the predictions
    [preds]. *)
Definition analysed_frame (logs : list string) (preds : list Z) : DataFrame :=
  (parsed_frame logs ++
   [ ("level_score", level_scores (kept_levels logs));
     ("message_length", message_lengths (kept_messages logs));
     ("anomaly", map VNum preds);
     ("is_anomaly", map readable (map VNum preds)) ])%list.

(** The world after [parse_logs]: the frame before [dropna] stays behind as
    an object that nothing refers to. *)
Definition heap_after_parse (logs : list string) (h : gmap loc DataFrame)
  : gmap loc DataFrame :=
  <[fresh (dom h) := coerced_frame logs]> h.

Definition parsed_at (logs : list string) (h : gmap loc DataFrame) : loc :=
  fresh (dom (heap_after_parse logs h)).

(** The frame of a parse that kept no line. *)
Definition no_rows : DataFrame :=
  [("timestamp", []); ("level", []); ("message", [])].

(** The frame an operation returns, when it returns one. *)
Definition returned_frame (out : result loc * world) : option DataFrame :=
  match out with
  | (Ok r, w) => heap w !! r
  | (Raise _, _) => None
  end.

(** The outcome of an operation on the frame [r], the address set aside. *)
Definition outcome_on (r : loc) (out : result loc * world)
  : result unit * option DataFrame :=
  (match fst out with Ok _ => Ok tt | Raise e => Raise e end,
   heap (snd out) !! r).

(** The estimator that [detect_anomalies] builds. *)
Definition forest (c : Q) : IsolationForest :=
  {| contamination := c; random_state := Some 42%Z |}.

(** The three stages, chained as [main] chains them. *)
Definition analyse (logs : list string) (contamination : Q) : M loc :=
  df <- parse_logs logs ;;
  df <- feature_engineering df ;;
  detect_anomalies df contamination.

(** The rows that [main] reports, for the predictions [preds]: those with
    the prediction -1. *)
Definition anomaly_mask (preds : list Z) : list bool :=
  map (fun p => Z.eqb p (-1)) preds.

Definition reported_frame (logs : list string) (preds : list Z) : DataFrame :=
  Frame.select_rows (anomaly_mask preds) (analysed_frame logs preds).

(** The one [print] call of a run of [main] that reaches its end. *)
Definition report (logs : list string) (preds : list Z) : list printed :=
  if existsb (fun p => Z.eqb p (-1)) preds
  then [PStr (PyStr.nl ++ "üîç **Detected Anomalies:**" ++ PyStr.nl);
        PFrame (reported_frame logs preds)]
  else [PStr (PyStr.nl ++ "üîç No anomalies detected.")].

(** The exit status of the process that runs [main]: [sys.exit(n)] gives
    [n], the end of the script gives 0 and an uncaught exception gives 1. *)
Definition exit_status (r : result unit) : Z :=
  match r with
  | Ok _ => 0
  | Raise (SystemExit c) => c
  | Raise _ => 1
  end.

End Program.

(** A cell that holds an anomaly score: a number above 0 and at most 1. *)
Definition unit_score (v : value) : Prop :=
  exists z, v = VNum z /\ (0 < z <= 1)%Z.

(** A prediction of the estimator, and the label that goes with it. *)
Definition prediction (p : Z) : Prop := p = (-1)%Z \/ p = 1%Z.

Definition label_of (p : Z) : value :=
  VStr (if Z.eqb p (-1) then ANOMALY else NORMAL).

(** ** The labelling policy of the detector *)

Inductive label : Type := Normal | Anomaly.

Definition label_eqb (a b : label) : bool :=
  match a, b with
  | Normal, Normal | Anomaly, Anomaly => true
  | _, _ => false
  end.

(** Rounding to the nearest integer, a tie going to the even one. *)
Definition round_half_even (q : Q) : Z :=
  let f := Qfloor q in
  match Qcompare (q - inject_Z f) (1 # 2) with
  | Lt => f
  | Gt => (f + 1)%Z
  | Eq => if Z.even f then f else (f + 1)%Z
  end.

(** A stable insertion sort of indexed scores, the highest score first. *)
Fixpoint insert_desc (x : nat * Q) (l : list (nat * Q)) : list (nat * Q) :=
  match l with
  | [] => [x]
  | y :: l' =>
      if Qle_bool (snd y) (snd x) then x :: l else y :: insert_desc x l'
  end.

Definition sort_desc (l : list (nat * Q)) : list (nat * Q) :=
  fold_right insert_desc [] l.

(** The number of points to flag in a population of [n]. *)
Definition flagged_count (c : Q) (n : nat) : nat :=
  Z.to_nat (round_half_even (c * inject_Z (Z.of_nat n))).

(** Modelled from the spec: the labelling step of the Outlier Detector, which
    the repository leaves to scikit-learn's [IsolationForest] (no part of the
    sources at hand).  The scores are sorted descending; the top
    [contamination] fraction (rounded) of the population, by score, is
    labelled [Anomaly] and the rest [Normal]. *)
Definition label_by_contamination (c : Q) (scores : list Q) : list label :=
  let n := length scores in
  let ranked := sort_desc (combine (seq 0 n) scores) in
  let top := map fst (firstn (flagged_count c n) ranked) in
  map (fun i => if existsb (Nat.eqb i) top then Anomaly else Normal) (seq 0 n).

Definition count_anomalies (ls : list label) : nat :=
  length (List.filter (label_eqb Anomaly) ls).

(** ** Stand-ins for the libraries

    Small, computable instances of [Pandas] and [Sklearn], with which the
    program can be run on examples. *)

Module StandIn.

Definition is_digit (c : ascii) : bool :=
  let n := nat_of_ascii c in ((48 <=? n) && (n <=? 57))%nat.

(** The characters of [s] match the layout [fmt], where [d] stands for a
    digit and every other character for itself. *)
Fixpoint matches (fmt s : string) : bool :=
  match fmt, s with
  | EmptyString, EmptyString => true
  | String f fmt', String c s' =>
      (if Ascii.eqb f "d"%char then is_digit c else Ascii.eqb f c)
      && matches fmt' s'
  | _, _ => false
  end.

(** The digits of [s], read as one decimal number. *)
Fixpoint digits (acc : Z) (s : string) : Z :=
  match s with
  | EmptyString => acc
  | String c s' =>
      if is_digit c
      then digits (10 * acc + Z.of_nat (nat_of_ascii c - 48)) s'
      else digits acc s'
  end.

(** A conversion that reads the one layout [YYYY-MM-DD hh:mm:ss]. *)
Definition read_timestamp (v : value) : value :=
  match v with
  | VStr s =>
      if matches "dddd-dd-dd dd:dd:dd" s then VTime (digits 0 s) else VNull
  | VTime t => VTime t
  | _ => VNull
  end.

Definition pandas : Pandas := {| to_datetime_coerce := map read_timestamp |}.

Definition numeric (v : value) : option Z :=
  match v with VNum z => Some z | _ => None end.

Fixpoint numeric_column (s : Series) : option (list Z) :=
  match s with
  | [] => Some []
  | v :: s' =>
      match numeric v, numeric_column s' with
      | Some z, Some zs => Some (z :: zs)
      | _, _ => None
      end
  end.

Definition sumZ (l : list Z) : Z := fold_right Z.add 0%Z l.

(** How far each cell of a column lies from the column's mean, scaled by
    the number of rows. *)
Definition spread (col : list Z) : list Z :=
  map (fun x => Z.abs (Z.of_nat (length col) * x - sumZ col)) col.

Fixpoint add_columns (a b : list Z) : list Z :=
  match a, b with
  | x :: a', y :: b' => (x + y)%Z :: add_columns a' b'
  | _, _ => []
  end.

(** One score per row: the distances of its cells to the column means,
    added up, and a disturbance [noise] that only an unseeded estimator
    feels. *)
Fixpoint scores (n : nat) (X : DataFrame) : option (list Z) :=
  match X with
  | [] => Some (repeat 0%Z n)
  | (_, s) :: X' =>
      match numeric_column s, scores n X' with
      | Some col, Some rest => Some (add_columns (spread col) rest)
      | _, _ => None
      end
  end.

Definition disturb (g : nat) (l : list Z) : list Z :=
  map (fun '(i, x) => if Nat.even (g + i) then x else (x + 1000000)%Z)
    (combine (seq 0 (length l)) l).

Definition to_prediction (l : label) : Z :=
  match l with Anomaly => (-1)%Z | Normal => 1%Z end.

Definition fit_predict_impl (model : IsolationForest) (g : nat) (X : DataFrame)
  : result (list Z) * nat :=
  if (Frame.nrows X =? 0)%nat
  then (Raise (ValueError "Found array with 0 sample(s)"), g)
  else
    match scores (Frame.nrows X) X with
    | None => (Raise (ValueError "could not convert string to float"), g)
    | Some sc =>
        match random_state model with
        | Some _ =>
            (Ok (map to_prediction
                   (label_by_contamination (contamination model)
                      (map inject_Z sc))), g)
        | None =>
            (Ok (map to_prediction
                   (label_by_contamination (contamination model)
                      (map inject_Z (disturb g sc)))), S g)
        end
    end.

Definition sklearn : Sklearn :=
  {| RandomState := nat; IsolationForest_fit_predict := fit_predict_impl |}.

(** A world with no object and nothing printed, whose only file is
    [path]. *)
Definition world_with (path : string) (lines : list string) (g : nat)
  : @world sklearn :=
  {| heap := ∅; stdout := []; np_random := (g : @RandomState sklearn);
     files := fun p => if String.eqb p path then ReadLines lines else NotFound |}.

(** A world whose only object is [df], at the address [r]. *)
Definition holding (r : loc) (df : DataFrame) (g : nat) : @world sklearn :=
  {| heap := {[ r := df ]}; stdout := []; np_random := (g : @RandomState sklearn);
     files := fun _ => NotFound |}.



Definition mixed_vectors : DataFrame :=
  [ ("timestamp", [VTime 20240115102301%Z; VTime 20240115102302%Z;
                   VTime 20240115102303%Z; VTime 20240115102304%Z;
                   VTime 20240115102305%Z; VTime 20240115102306%Z]);
    ("level", [VStr "INFO"; VStr "INFO"; VStr "INFO"; VStr "INFO";
               VStr "CRITICAL"; VStr "INFO"]);
    ("message", [VStr "Service started"; VStr "Service running";
                 VStr "Service healthy"; VStr "Service checked";
                 VStr "Disk write failed on /dev/sda1 after 3 retries";
                 VStr "Service stopped"]);
    ("level_score", [VNum 1; VNum 1; VNum 1; VNum 1; VNum 4; VNum 1]);
    ("message_length", [VNum 15; VNum 15; VNum 15; VNum 15; VNum 48; VNum 15]) ].

Definition sample_log : list string :=
  [ "2024-01-15 10:23:01 INFO Service started" ++ PyStr.nl;
    "2024-01-15 10:23:02 INFO Service running" ++ PyStr.nl;
    "malformed line" ++ PyStr.nl;
    "2024-01-15 10:23:03 INFO Service healthy" ++ PyStr.nl;
    "yesterday at-noon INFO Service guessed" ++ PyStr.nl;
    "2024-01-15 10:23:04 INFO Service checked" ++ PyStr.nl;
    "2024-01-15 10:23:05 CRITICAL Disk write failed on /dev/sda1 after 3 retries, remounting the volume read-only" ++ PyStr.nl;
    "2024-01-15 10:23:06 INFO Service stopped" ++ PyStr.nl ].

(** The lines of [sample_log] that the parser keeps. *)
Definition clean_log : list string :=
  [ "2024-01-15 10:23:01 INFO Service started" ++ PyStr.nl;
    "2024-01-15 10:23:02 INFO Service running" ++ PyStr.nl;
    "2024-01-15 10:23:03 INFO Service healthy" ++ PyStr.nl;
    "2024-01-15 10:23:04 INFO Service checked" ++ PyStr.nl;
    "2024-01-15 10:23:05 CRITICAL Disk write failed on /dev/sda1 after 3 retries, remounting the volume read-only" ++ PyStr.nl;
    "2024-01-15 10:23:06 INFO Service stopped" ++ PyStr.nl ].

Definition start : @world sklearn := world_with "system_logs.txt" sample_log 0.




(** An estimator that refuses every call, and a world for it. *)
Definition refusing : Sklearn :=
  {| RandomState := nat;
     IsolationForest_fit_predict :=
       fun _ g _ => (Raise (LibraryError "the estimator refused"), g) |}.

Definition start_refusing : @world refusing :=
  {| heap := ∅; stdout := []; np_random := (0 : @RandomState refusing);
     files := fun p => if String.eqb p "system_logs.txt"
                       then ReadLines sample_log else NotFound |}.

(** Lines of which none gives a record. *)
Definition noise_log : list string :=
  [ "malformed line" ++ PyStr.nl;
    "yesterday at-noon INFO Service guessed" ++ PyStr.nl ].

End StandIn.

(** * Properties *)

(** ** Strings *)

Module PyStrFacts.
Import PyStr.

Lemma partition_space_none s :
  partition_space s = None <-> count_space s = 0.
Proof.
  induction s as [|c r IH]; simpl; [tauto|].
  destruct (Ascii.eqb c " "); [split; discriminate|].
  destruct (partition_space r) as [[a b]|]; split; intros Hn;
    try discriminate; try reflexivity.
  - apply IH in Hn. discriminate.
  - apply IH. reflexivity.
Qed.

Lemma partition_space_some s a b :
  partition_space s = Some (a, b) ->
  s = a ++ " " ++ b /\ count_space a = 0 /\ count_space s = S (count_space b).
Proof.
  revert a b. induction s as [|c r IH]; simpl; intros a b Hp; [discriminate|].
  destruct (Ascii.eqb c " ") eqn:Hc.
  - apply Ascii.eqb_eq in Hc. subst c. injection Hp as <- <-. auto.
  - destruct (partition_space r) as [[a' b']|]; [|discriminate].
    injection Hp as <- <-.
    destruct (IH a' b' eq_refl) as (Hr & Ha & Hn).
    split; [rewrite Hr at 1; reflexivity|].
    simpl. rewrite Hc. split; assumption.
Qed.

Lemma split_length n s :
  length (split n s) = Nat.min (S n) (S (count_space s)).
Proof.
  revert s. induction n as [|n IH]; intros s; simpl split.
  - reflexivity.
  - destruct (partition_space s) as [[a b]|] eqn:Hp.
    + apply partition_space_some in Hp as (_ & _ & Hn).
      simpl length. rewrite IH, Hn. lia.
    + apply partition_space_none in Hp. rewrite Hp. reflexivity.
Qed.

Lemma split_length_le n s : length (split n s) <= S n.
Proof. rewrite split_length. lia. Qed.

Lemma split_not_nil n s : split n s <> [].
Proof.
  destruct n; simpl; [discriminate|].
  destruct (partition_space s) as [[a b]|]; discriminate.
Qed.

Lemma join_space_cons p q rest :
  join_space (p :: q :: rest) = p ++ " " ++ join_space (q :: rest).
Proof. reflexivity. Qed.

Lemma split_join n s : join_space (split n s) = s.
Proof.
  revert s. induction n as [|n IH]; intros s; simpl split; [reflexivity|].
  destruct (partition_space s) as [[a b]|] eqn:Hp; [|reflexivity].
  apply partition_space_some in Hp as (Hs & _ & _).
  specialize (IH b).
  destruct (split n b) as [|q rest] eqn:Hq; [now apply split_not_nil in Hq|].
  rewrite join_space_cons, IH. symmetry. exact Hs.
Qed.

(** Every piece but the last lies between two cuts and holds no space. *)
Lemma split_fields_no_space n s i :
  S i < length (split n s) -> count_space (nth i (split n s) "") = 0.
Proof.
  revert s i. induction n as [|n IH]; intros s i; simpl split.
  - simpl. lia.
  - destruct (partition_space s) as [[a b]|] eqn:Hp; [|simpl; lia].
    apply partition_space_some in Hp as (_ & Ha & _).
    destruct i as [|i]; simpl; intros Hi; [exact Ha|].
    apply IH. lia.
Qed.

Lemma count_space_le_length s : count_space s <= String.length s.
Proof.
  induction s as [|c r IH]; simpl; [lia|]. destruct (Ascii.eqb c " "); lia.
Qed.

Lemma split_all_length s : length (split_all s) = S (count_space s).
Proof.
  unfold split_all. rewrite split_length.
  pose proof (count_space_le_length s). lia.
Qed.

Lemma count_space_lstrip s : count_space (lstrip s) <= count_space s.
Proof.
  induction s as [|c r IH]; simpl; [lia|].
  destruct (is_space c); simpl; destruct (Ascii.eqb c " "); lia.
Qed.

Lemma count_space_rstrip s : count_space (rstrip s) <= count_space s.
Proof.
  induction s as [|c r IH]; simpl; [lia|].
  destruct (rstrip r) as [|c' r'] eqn:Hr.
  - destruct (is_space c); simpl; destruct (Ascii.eqb c " "); simpl; lia.
  - change (count_space (String c (String c' r'))) with
      (if Ascii.eqb c " " then S (count_space (String c' r'))
       else count_space (String c' r')).
    destruct (Ascii.eqb c " "); lia.
Qed.

Lemma count_space_strip s : count_space (strip s) <= count_space s.
Proof.
  unfold strip. pose proof (count_space_rstrip (lstrip s)).
  pose proof (count_space_lstrip s). lia.
Qed.

(** A line with fewer than four space-separated tokens gives fewer than
    four fields, whether the tokens are counted before or after the
    trimming. *)
Lemma few_tokens_few_fields log :
  length (split_all log) < 4 \/ length (split_all (strip log)) < 4 ->
  length (split 3 (strip log)) < 4.
Proof.
  rewrite !split_all_length, split_length.
  pose proof (count_space_strip log). lia.
Qed.

Lemma all_space_cons c s :
  all_space (String c s) <-> is_space c = true /\ all_space s.
Proof.
  unfold all_space. simpl. split.
  - intros Hall. split; [apply Hall; now left|].
    intros c' Hin. apply Hall. now right.
  - intros [Hc Hall] c' [<-|Hin]; auto.
Qed.

Lemma rstrip_all_space ws : all_space ws -> rstrip ws = "".
Proof.
  induction ws as [|c r IH]; [reflexivity|].
  intros [Hc Hr]%all_space_cons. simpl. rewrite (IH Hr), Hc. reflexivity.
Qed.

Lemma rstrip_app s ws : all_space ws -> rstrip (s ++ ws) = rstrip s.
Proof.
  intros Hws. induction s as [|c r IH]; simpl.
  - now apply rstrip_all_space.
  - rewrite IH. reflexivity.
Qed.

Lemma lstrip_all_space ws : all_space ws -> lstrip ws = "".
Proof.
  induction ws as [|c r IH]; [reflexivity|].
  intros [Hc Hr]%all_space_cons. simpl. rewrite Hc. auto.
Qed.

Lemma lstrip_app s ws :
  all_space ws ->
  lstrip (s ++ ws) = lstrip s ++ ws \/ (lstrip (s ++ ws) = "" /\ lstrip s = "").
Proof.
  intros Hws. induction s as [|c r IH]; simpl.
  - right. split; [now apply lstrip_all_space|reflexivity].
  - destruct (is_space c); [exact IH|]. now left.
Qed.

(** Whitespace at the end of a line does not reach the fields. *)
Lemma strip_trailing s ws : all_space ws -> strip (s ++ ws) = strip s.
Proof.
  intros Hws. unfold strip.
  destruct (lstrip_app s ws Hws) as [-> | [-> ->]].
  - now apply rstrip_app.
  - reflexivity.
Qed.

(** Whitespace at the start of a line is trimmed as well. *)
Lemma strip_leading ws s : all_space ws -> strip (ws ++ s) = strip s.
Proof.
  intros Hws. unfold strip. f_equal.
  induction ws as [|c r IH]; [reflexivity|].
  apply all_space_cons in Hws as [Hc Hr]. simpl. rewrite Hc. auto.
Qed.

(** What is left after the trimming does not end with whitespace. *)
Lemma rstrip_last s c : last_char (rstrip s) = Some c -> is_space c = false.
Proof.
  induction s as [|a r IH]; simpl; [discriminate|].
  destruct (rstrip r) as [|c' r'] eqn:Hr.
  - destruct (is_space a) eqn:Ha; simpl; [discriminate|].
    intros [= <-]. exact Ha.
  - intros Hl. apply IH. exact Hl.
Qed.

Lemma strip_last log c : last_char (strip log) = Some c -> is_space c = false.
Proof. apply rstrip_last. Qed.

Lemma all_space_nil : all_space "".
Proof. intros c []. Qed.

(** What [lstrip] and [rstrip] remove is whitespace, and what they leave
    begins, respectively ends, with a character that is none. *)
Lemma lstrip_split s : exists ws, all_space ws /\ s = ws ++ lstrip s.
Proof.
  induction s as [|c r (ws & Hws & IH)]; simpl.
  - exists "". split; [apply all_space_nil|reflexivity].
  - destruct (is_space c) eqn:Hc.
    + exists (String c ws). split; [now apply all_space_cons|].
      rewrite IH at 1. reflexivity.
    + exists "". split; [apply all_space_nil|reflexivity].
Qed.

Lemma rstrip_split s : exists ws, all_space ws /\ s = rstrip s ++ ws.
Proof.
  induction s as [|c r (ws & Hws & IH)]; simpl.
  - exists "". split; [apply all_space_nil|reflexivity].
  - destruct (rstrip r) as [|c' r'] eqn:Hr.
    + assert (ws = r) as -> by (symmetry; exact IH).
      destruct (is_space c) eqn:Hc.
      * exists (String c r). split; [now apply all_space_cons|reflexivity].
      * exists r. split; [exact Hws|reflexivity].
    + exists ws. split; [exact Hws|]. rewrite IH at 1. reflexivity.
Qed.

Lemma strip_split s :
  exists before after,
    all_space before /\ all_space after /\ s = before ++ strip s ++ after.
Proof.
  destruct (lstrip_split s) as (before & Hb & Hs).
  destruct (rstrip_split (lstrip s)) as (after & Ha & Hl).
  exists before, after. repeat split; try assumption.
  unfold strip. now rewrite <- Hl.
Qed.

Lemma lstrip_head s c r : lstrip s = String c r -> is_space c = false.
Proof.
  induction s as [|a t IH]; simpl; [discriminate|].
  destruct (is_space a) eqn:Ha; [exact IH|]. now intros [= <- _].
Qed.

Lemma rstrip_head s c r : rstrip s = String c r -> exists t, s = String c t.
Proof.
  destruct s as [|a t]; simpl; [discriminate|].
  destruct (rstrip t); [destruct (is_space a); [discriminate|]|];
    intros [= <- _]; eauto.
Qed.

Lemma strip_head s c r : strip s = String c r -> is_space c = false.
Proof.
  unfold strip. intros Hs. apply rstrip_head in Hs as (t & Ht).
  exact (lstrip_head s c t Ht).
Qed.

End PyStrFacts.

(** ** Frames *)

Module FrameFacts.
Import Frame.

Lemma get_set_eq df n s : get_col (set_col df n s) n = Some s.
Proof.
  induction df as [|[m c] rest IH]; simpl.
  - now rewrite String.eqb_refl.
  - destruct (String.eqb m n) eqn:E; simpl; rewrite E; auto.
Qed.

Lemma get_set_ne df n m s :
  n <> m -> get_col (set_col df n s) m = get_col df m.
Proof.
  intros Hne. induction df as [|[k c] rest IH]; simpl.
  - apply String.eqb_neq in Hne. now rewrite Hne.
  - destruct (String.eqb k n) eqn:E; simpl.
    + apply String.eqb_eq in E. subst k.
      apply String.eqb_neq in Hne. now rewrite Hne.
    + destruct (String.eqb k m); auto.
Qed.

Lemma col_names_set df n s :
  col_names (set_col df n s) = add_name (col_names df) n.
Proof.
  unfold add_name, col_names.
  induction df as [|[k c] rest IH]; simpl; [reflexivity|].
  rewrite (String.eqb_sym n k).
  destruct (String.eqb k n); simpl; [reflexivity|].
  rewrite IH. destruct (existsb (String.eqb n) (map fst rest)); reflexivity.
Qed.

Lemma nrows_set df n s :
  df = [] \/ length s = nrows df -> nrows (set_col df n s) = length s.
Proof.
  destruct df as [|[k c] rest]; simpl; [reflexivity|].
  intros [H|H]; [discriminate|].
  destruct (String.eqb k n); simpl; congruence.
Qed.

Lemma wf_set df n s :
  wf df -> df = [] \/ length s = nrows df -> wf (set_col df n s).
Proof.
  intros Hwf Hlen. unfold wf. rewrite (nrows_set _ _ _ Hlen).
  destruct Hlen as [->|Hlen]; [repeat constructor|].
  unfold wf in Hwf. rewrite <- Hlen in Hwf. clear Hlen.
  induction Hwf as [|[k c] rest Hk Hrest IH]; simpl; [repeat constructor|].
  destruct (String.eqb k n); constructor; auto.
Qed.

Lemma get_col_wf df n s : wf df -> get_col df n = Some s -> length s = nrows df.
Proof.
  unfold wf. generalize (nrows df) as k. intros k Hwf.
  induction Hwf as [|[m c] rest Hm Hrest IH]; simpl; [discriminate|].
  destruct (String.eqb m n); [intros [= <-]; exact Hm|exact IH].
Qed.

Lemma get_col_some_not_nil df n s : get_col df n = Some s -> df <> [].
Proof. destruct df; [discriminate|discriminate]. Qed.

Lemma get_select_rows mask df n :
  get_col (select_rows mask df) n = option_map (select mask) (get_col df n).
Proof.
  induction df as [|[m c] rest IH]; simpl; [reflexivity|].
  destruct (String.eqb m n); [reflexivity|exact IH].
Qed.

Lemma col_names_select_rows mask df :
  col_names (select_rows mask df) = col_names df.
Proof.
  unfold col_names, select_rows. rewrite map_map.
  apply map_ext. now intros [m c].
Qed.

(** The rows kept are those of the mask's [true]s, in their order. *)
Lemma select_spec {A} (mask : list bool) (l : list A) :
  select mask l = map snd (List.filter fst (combine mask l)).
Proof.
  revert l. induction mask as [|b mask IH]; intros [|x l]; simpl; auto.
  destruct b; simpl; now rewrite IH.
Qed.

Lemma select_length {A} (mask : list bool) (l : list A) :
  length mask = length l ->
  length (select mask l) = length (List.filter (fun b => b) mask).
Proof.
  revert l. induction mask as [|b mask IH]; intros [|x l]; simpl;
    try discriminate; auto.
  intros [= Hl]. destruct b; simpl; auto.
Qed.

Lemma select_all_true {A} (mask : list bool) (l : list A) :
  length mask = length l -> Forall (fun b => b = true) mask ->
  select mask l = l.
Proof.
  revert l. induction mask as [|b mask IH]; intros [|x l]; simpl;
    try discriminate; auto.
  intros [= Hl] Hall. inversion Hall as [|? ? Hb Hrest]; subst.
  simpl. f_equal. auto.
Qed.

Lemma select_all_false {A} (mask : list bool) (l : list A) :
  Forall (fun b => b = false) mask -> select mask l = [].
Proof.
  revert l. induction mask as [|b mask IH]; intros [|x l] Hall; simpl; auto.
  inversion Hall; subst. auto.
Qed.

(** A cell that survives the mask of the non-null cells is not null. *)
Lemma select_notna (s : Series) :
  Forall (fun v => isna v = false) (select (map (fun v => negb (isna v)) s) s).
Proof.
  induction s as [|v s IH]; simpl; [constructor|].
  destruct (isna v) eqn:E; simpl; [exact IH|].
  constructor; assumption.
Qed.

End FrameFacts.

(** ** Running the operations *)

Section Runs.

Context `{!Pandas} `{!Sklearn}.

Lemma bind_ok {A B} (m : M A) (k : A -> M B) w a w' :
  m w = (Ok a, w') -> bind m k w = k a w'.
Proof. intros Hm. unfold bind. now rewrite Hm. Qed.

Lemma bind_raise {A B} (m : M A) (k : A -> M B) w e w' :
  m w = (Raise e, w') -> bind m k w = (Raise e, w').
Proof. intros Hm. unfold bind. now rewrite Hm. Qed.

Lemma load_ok w r d : heap w !! r = Some d -> load r w = (Ok d, w).
Proof. intros Hr. unfold load. now rewrite Hr. Qed.

Lemma getitem_ok w r d n s :
  heap w !! r = Some d -> Frame.get_col d n = Some s ->
  getitem r n w = (Ok s, w).
Proof.
  intros Hr Hn. unfold getitem.
  rewrite (bind_ok _ _ _ _ _ (load_ok _ _ _ Hr)). now rewrite Hn.
Qed.

Lemma getitem_missing w r d n :
  heap w !! r = Some d -> Frame.get_col d n = None ->
  getitem r n w = (Raise (KeyError n), w).
Proof.
  intros Hr Hn. unfold getitem.
  rewrite (bind_ok _ _ _ _ _ (load_ok _ _ _ Hr)). now rewrite Hn.
Qed.

Lemma setitem_ok w r d n s :
  heap w !! r = Some d -> d = [] \/ length s = Frame.nrows d ->
  setitem r n s w
  = (Ok tt, with_heap (<[r := Frame.set_col d n s]> (heap w)) w).
Proof.
  intros Hr Hlen. unfold setitem.
  rewrite (bind_ok _ _ _ _ _ (load_ok _ _ _ Hr)).
  assert (((length d =? 0) || (length s =? Frame.nrows d))%nat = true) as ->.
  { destruct Hlen as [-> | ->]; [reflexivity|].
    rewrite Nat.eqb_refl. apply orb_true_r. }
  reflexivity.
Qed.

Lemma heap_with_heap h w : heap (with_heap h w) = h.
Proof. reflexivity. Qed.

(** The columns that a list of three-cell rows gives. *)
Lemma of_rows_three data :
  Forall (fun row => length row = 3) data ->
  Frame.of_rows ["timestamp"; "level"; "message"] data
  = Some [ ("timestamp", column 0 data);
           ("level", column 1 data);
           ("message", column 2 data) ].
Proof.
  intros Hall. unfold Frame.of_rows.
  assert (forallb (fun row => (length row =? 3)%nat) data = true) as Hb.
  { apply forallb_forall. intros row Hin.
    rewrite List.Forall_forall in Hall. rewrite (Hall row Hin). reflexivity. }
  simpl length. rewrite Hb. reflexivity.
Qed.

(** The loop of [parse_logs] adds one row for a line of four fields and
    none for any other line. *)
Lemma parse_step_app data log : parse_step data log = (data ++ row_of log)%list.
Proof.
  unfold row_of, parse_step.
  destruct (length (PyStr.split 3 (PyStr.strip log)) <? 4)%nat.
  - now rewrite app_nil_r.
  - reflexivity.
Qed.

Lemma fold_parse_step logs acc :
  fold_left parse_step logs acc = (acc ++ flat_map row_of logs)%list.
Proof.
  revert acc. induction logs as [|log logs IH]; intros acc; simpl.
  - now rewrite app_nil_r.
  - rewrite IH, parse_step_app, <- app_assoc. reflexivity.
Qed.

Lemma rows_of_flat_map logs : rows_of logs = flat_map row_of logs.
Proof. unfold rows_of. now rewrite fold_parse_step. Qed.

Lemma rows_of_cons log logs :
  rows_of (log :: logs) = (row_of log ++ rows_of logs)%list.
Proof. rewrite !rows_of_flat_map. reflexivity. Qed.

Lemma row_of_length log : Forall (fun row => length row = 3) (row_of log).
Proof.
  unfold row_of, parse_step.
  destruct (length (PyStr.split 3 (PyStr.strip log)) <? 4)%nat;
    repeat constructor.
Qed.

Lemma rows_of_length logs : Forall (fun row => length row = 3) (rows_of logs).
Proof.
  rewrite rows_of_flat_map. induction logs as [|log logs IH]; simpl.
  - constructor.
  - apply Forall_app. split; [apply row_of_length|exact IH].
Qed.

Lemma column_length j data : length (column j data) = length data.
Proof. unfold column. apply length_map. Qed.

(** *** [parse_logs] *)

Lemma parse_logs_run logs w :
  length_preserving ->
  let r1 := fresh (dom (heap w)) in
  let h1 := <[r1 := coerced_frame logs]> (heap w) in
  let r2 := fresh (dom h1) in
  parse_logs logs w
  = (Ok r2,
     with_heap
       (<[r2 := Frame.select_rows (survivors logs) (coerced_frame logs)]> h1) w).
Proof.
  intros Hlen r1 h1 r2. unfold parse_logs.
  change (fold_left parse_step logs []) with (rows_of logs).
  unfold DataFrame_new. rewrite (of_rows_three _ (rows_of_length logs)).
  set (raw := [("timestamp", column 0 (rows_of logs));
               ("level", column 1 (rows_of logs));
               ("message", column 2 (rows_of logs))]).
  assert (alloc raw w = (Ok r1, with_heap (<[r1 := raw]> (heap w)) w)) as Ha
    by reflexivity.
  rewrite (bind_ok _ _ _ _ _ Ha).
  set (w1 := with_heap (<[r1 := raw]> (heap w)) w).
  assert (heap w1 !! r1 = Some raw) as Hr1 by apply lookup_insert_eq.
  rewrite (bind_ok _ _ _ _ _ (getitem_ok w1 r1 raw "timestamp" _ Hr1 eq_refl)).
  assert (length (to_datetime_coerce (column 0 (rows_of logs)))
          = Frame.nrows raw) as Hn by (rewrite Hlen; reflexivity).
  rewrite (bind_ok _ _ _ _ _
             (setitem_ok w1 r1 raw "timestamp" _ Hr1 (or_intror Hn))).
  simpl Frame.set_col. fold (coerced logs). fold (coerced_frame logs).
  assert (with_heap (<[r1 := coerced_frame logs]> (heap w1)) w1
          = with_heap h1 w) as ->.
  { unfold w1, with_heap, h1. simpl. f_equal. apply insert_insert_eq. }
  set (w2 := with_heap h1 w).
  assert (heap w2 !! r1 = Some (coerced_frame logs)) as Hr2
    by apply lookup_insert_eq.
  unfold dropna, bind.
  rewrite (getitem_ok w2 r1 _ "timestamp" _ Hr2 eq_refl).
  rewrite (load_ok _ _ _ Hr2).
  reflexivity.
Qed.

Lemma parse_logs_frame logs w :
  length_preserving ->
  returned_frame (parse_logs logs w)
  = Some (Frame.select_rows (survivors logs) (coerced_frame logs)).
Proof.
  intros Hlen. rewrite (parse_logs_run logs w Hlen).
  unfold returned_frame. apply lookup_insert_eq.
Qed.

(** *** [feature_engineering] *)

Lemma level_mapping_lookup level :
  match level_mapping !! level with Some z => z | None => 0%Z end
  = expected_level_score level.
Proof.
  unfold expected_level_score.
  destruct (String.eqb level "INFO") eqn:E1;
    [apply String.eqb_eq in E1; subst; reflexivity|].
  destruct (String.eqb level "WARNING") eqn:E2;
    [apply String.eqb_eq in E2; subst; reflexivity|].
  destruct (String.eqb level "ERROR") eqn:E3;
    [apply String.eqb_eq in E3; subst; reflexivity|].
  destruct (String.eqb level "CRITICAL") eqn:E4;
    [apply String.eqb_eq in E4; subst; reflexivity|].
  apply String.eqb_neq in E1, E2, E3, E4.
  unfold level_mapping.
  rewrite !lookup_insert_ne by congruence. now rewrite lookup_empty.
Qed.

Lemma level_score_column levels :
  fillna (VNum 0) (Series_map level_mapping (map VStr levels))
  = map (fun l => VNum (expected_level_score l)) levels.
Proof.
  unfold fillna, Series_map. rewrite !map_map. apply map_ext. intros l.
  rewrite <- level_mapping_lookup. now destruct (level_mapping !! l).
Qed.

Lemma level_score_column_length lv :
  length (fillna (VNum 0) (Series_map level_mapping lv)) = length lv.
Proof. unfold fillna, Series_map. now rewrite !length_map. Qed.

Lemma apply_len_strings messages :
  Series_apply py_len (map VStr messages)
  = Ok (map (fun m => VNum (Z.of_nat (String.length m))) messages).
Proof.
  induction messages as [|m ms IH]; simpl; [reflexivity|]. now rewrite IH.
Qed.

Lemma feature_engineering_run w r df lv messages :
  heap w !! r = Some df ->
  Frame.get_col df "level" = Some lv ->
  Frame.get_col df "message" = Some (map VStr messages) ->
  length lv = Frame.nrows df ->
  length messages = Frame.nrows df ->
  feature_engineering r w
  = (Ok r,
     with_heap
       (<[r := Frame.set_col
                 (Frame.set_col df "level_score"
                    (fillna (VNum 0) (Series_map level_mapping lv)))
                 "message_length"
                 (map (fun m => VNum (Z.of_nat (String.length m))) messages)]>
          (heap w)) w).
Proof.
  intros Hr Hlv Hmsg Hn1 Hn2. unfold feature_engineering.
  rewrite (bind_ok _ _ _ _ _ (getitem_ok w r df "level" lv Hr Hlv)).
  assert (length (fillna (VNum 0) (Series_map level_mapping lv))
          = Frame.nrows df) as Hs1
    by now rewrite level_score_column_length.
  rewrite (bind_ok _ _ _ _ _
             (setitem_ok w r df "level_score" _ Hr (or_intror Hs1))).
  set (df1 := Frame.set_col df "level_score" _).
  set (w1 := with_heap (<[r := df1]> (heap w)) w).
  assert (heap w1 !! r = Some df1) as Hr1 by apply lookup_insert_eq.
  assert (Frame.get_col df1 "message" = Some (map VStr messages)) as Hmsg1.
  { unfold df1. rewrite FrameFacts.get_set_ne by discriminate. exact Hmsg. }
  rewrite (bind_ok _ _ _ _ _ (getitem_ok w1 r df1 "message" _ Hr1 Hmsg1)).
  unfold lift at 1. unfold bind at 1. rewrite apply_len_strings.
  assert (length (map (fun m => VNum (Z.of_nat (String.length m))) messages)
          = Frame.nrows df1) as Hs2.
  { unfold df1. rewrite FrameFacts.nrows_set by (right; exact Hs1).
    rewrite length_map. congruence. }
  rewrite (bind_ok _ _ _ _ _
             (setitem_ok w1 r df1 "message_length" _ Hr1 (or_intror Hs2))).
  unfold ret, w1, with_heap. simpl. do 2 f_equal. apply insert_insert_eq.
Qed.

(** *** [detect_anomalies] *)

Lemma getitems_features w r df ls ml :
  heap w !! r = Some df ->
  Frame.get_col df "level_score" = Some ls ->
  Frame.get_col df "message_length" = Some ml ->
  getitems r ["level_score"; "message_length"] w
  = (Ok [("level_score", ls); ("message_length", ml)], w).
Proof.
  intros Hr Hls Hml. simpl getitems. unfold bind.
  rewrite (getitem_ok w r df _ _ Hr Hls), (getitem_ok w r df _ _ Hr Hml).
  reflexivity.
Qed.

Lemma detect_anomalies_run w r df c ls ml preds g' :
  heap w !! r = Some df ->
  Frame.get_col df "level_score" = Some ls ->
  Frame.get_col df "message_length" = Some ml ->
  IsolationForest_fit_predict (forest c) (np_random w)
    [("level_score", ls); ("message_length", ml)] = (Ok preds, g') ->
  length preds = Frame.nrows df ->
  detect_anomalies r c w
  = (Ok r,
     {| heap := <[r := Frame.set_col
                         (Frame.set_col df "anomaly" (map VNum preds))
                         "is_anomaly" (map readable (map VNum preds))]>
                  (heap w);
        stdout := stdout w; np_random := g'; files := files w |}).
Proof.
  intros Hr Hls Hml Hfit Hn. unfold detect_anomalies.
  rewrite (bind_ok _ _ _ _ _ (getitems_features w r df ls ml Hr Hls Hml)).
  fold (forest c).
  assert (fit_predict (forest c) [("level_score", ls); ("message_length", ml)] w
          = (Ok preds, with_np_random g' w)) as Hfp.
  { unfold fit_predict. now rewrite Hfit. }
  rewrite (bind_ok _ _ _ _ _ Hfp).
  set (w1 := with_np_random g' w).
  assert (heap w1 !! r = Some df) as Hr1 by exact Hr.
  assert (length (map VNum preds) = Frame.nrows df) as Hs1
    by now rewrite length_map.
  rewrite (bind_ok _ _ _ _ _
             (setitem_ok w1 r df "anomaly" _ Hr1 (or_intror Hs1))).
  set (df1 := Frame.set_col df "anomaly" (map VNum preds)).
  set (w2 := with_heap (<[r := df1]> (heap w1)) w1).
  assert (heap w2 !! r = Some df1) as Hr2 by apply lookup_insert_eq.
  rewrite (bind_ok _ _ _ _ _
             (getitem_ok w2 r df1 "anomaly" _ Hr2
                (FrameFacts.get_set_eq df "anomaly" _))).
  assert (length (map readable (map VNum preds)) = Frame.nrows df1) as Hs2.
  { unfold df1. rewrite FrameFacts.nrows_set by (right; exact Hs1).
    now rewrite !length_map. }
  rewrite (bind_ok _ _ _ _ _
             (setitem_ok w2 r df1 "is_anomaly" _ Hr2 (or_intror Hs2))).
  unfold ret, w2, w1, with_heap, with_np_random. simpl.
  do 2 f_equal. apply insert_insert_eq.
Qed.

(** The label is [ANOMALY] exactly for the prediction [-1]. *)
Lemma readable_num p :
  readable (VNum p) = VStr (if Z.eqb p (-1) then ANOMALY else NORMAL).
Proof. unfold readable. simpl. now destruct (Z.eqb p (-1)). Qed.

End Runs.

(** ** The parser *)

Section Parser.

Context `{!Pandas} `{!Sklearn}.

Lemma parse_step_few data log :
  length (PyStr.split 3 (PyStr.strip log)) < 4 -> parse_step data log = data.
Proof.
  intros Hlt. unfold parse_step.
  apply Nat.ltb_lt in Hlt. now rewrite Hlt.
Qed.

Lemma parse_step_four data log :
  length (PyStr.split 3 (PyStr.strip log)) = 4 ->
  let parts := PyStr.split 3 (PyStr.strip log) in
  parse_step data log
  = (data ++ [[VStr (nth 0 parts "" ++ " " ++ nth 1 parts "");
               VStr (nth 2 parts ""); VStr (nth 3 parts "")]])%list.
Proof.
  intros Hlen parts. unfold parse_step, parts. cbv zeta. now rewrite Hlen.
Qed.

Lemma parse_logs_no_rows logs w :
  length_preserving -> rows_of logs = [] ->
  returned_frame (parse_logs logs w) = Some no_rows.
Proof.
  intros Hlen Hrows. rewrite (parse_logs_frame logs w Hlen).
  unfold survivors, coerced_frame, coerced. rewrite Hrows. simpl column.
  pose proof (Hlen []) as Hnil.
  destruct (to_datetime_coerce []); [reflexivity|discriminate].
Qed.

Lemma parse_logs_all_null logs w :
  length_preserving ->
  Forall (fun v => isna v = true) (coerced logs) ->
  returned_frame (parse_logs logs w) = Some no_rows.
Proof.
  intros Hlen Hnull. rewrite (parse_logs_frame logs w Hlen).
  unfold coerced_frame, Frame.select_rows, no_rows. simpl map.
  assert (Forall (fun b => b = false) (survivors logs)) as Hf.
  { unfold survivors. induction Hnull as [|v s Hv Hs IH]; simpl;
      constructor; [now rewrite Hv|exact IH]. }
  now rewrite !FrameFacts.select_all_false.
Qed.

(** C4.  For every raw line the parser trims the whitespace at its end
    (what is cut off the line is whitespace, and what is left neither ends
    nor begins with any) and
    cuts it at single spaces into at most four fields, the fourth taking
    all the text that is left: the fields are as many as the spaces of the
    trimmed line allow, one more than the spaces and four at most, none of
    the first three holds a space, and put together again with single
    spaces they are the trimmed line.  A line with fewer than four
    space-separated tokens, that is with fewer than three spaces, gives no
    record, a line whose trimmed text holds three spaces or more gives one;
    and the line [2024-01-15 10:23:01 INFO Service started] gives exactly
    one record, with level [INFO] and message [Service started]. *)
Theorem parse_logs_fields
  (Hlen : length_preserving)
  (Hts : Forall (fun v => isna v = false)
           (to_datetime_coerce [VStr "2024-01-15 10:23:01"])) :
  (forall log,
      let parts := PyStr.split 3 (PyStr.strip log) in
      length parts = Nat.min 4 (S (PyStr.count_space (PyStr.strip log)))
      /\ length parts <= 4
      /\ PyStr.join_space parts = PyStr.strip log
      /\ (forall i, S i < length parts -> PyStr.count_space (nth i parts "") = 0))
  /\ (forall s, length (PyStr.split_all s) = S (PyStr.count_space s))
  /\ (forall data log ws,
         PyStr.all_space ws -> parse_step data (log ++ ws) = parse_step data log)
  /\ (forall log c,
         PyStr.last_char (PyStr.strip log) = Some c -> PyStr.is_space c = false)
  /\ (forall log c rest,
         PyStr.strip log = String c rest -> PyStr.is_space c = false)
  /\ (forall log,
         exists before after,
           PyStr.all_space before /\ PyStr.all_space after
           /\ log = before ++ PyStr.strip log ++ after)
  /\ (forall data log,
         let parts := PyStr.split 3 (PyStr.strip log) in
         length parts = 4 ->
         parse_step data log
         = (data ++ [[VStr (nth 0 parts "" ++ " " ++ nth 1 parts "");
                      VStr (nth 2 parts ""); VStr (nth 3 parts "")]])%list)
  /\ (forall data log,
         let parts := PyStr.split 3 (PyStr.strip log) in
         3 <= PyStr.count_space (PyStr.strip log) ->
         parse_step data log
         = (data ++ [[VStr (nth 0 parts "" ++ " " ++ nth 1 parts "");
                      VStr (nth 2 parts ""); VStr (nth 3 parts "")]])%list)
  /\ (forall data log,
         PyStr.count_space (PyStr.strip log) < 3 -> parse_step data log = data)
  /\ (forall log w,
         length (PyStr.split_all log) < 4
         \/ length (PyStr.split_all (PyStr.strip log)) < 4 ->
         returned_frame (parse_logs [log] w)
         = Some [("timestamp", []); ("level", []); ("message", [])])
  /\ (forall log w,
         PyStr.count_space log < 3 \/ PyStr.count_space (PyStr.strip log) < 3 ->
         returned_frame (parse_logs [log] w)
         = Some [("timestamp", []); ("level", []); ("message", [])])
  /\ (forall w,
         returned_frame
           (parse_logs ["2024-01-15 10:23:01 INFO Service started"] w)
         = Some [ ("timestamp", to_datetime_coerce [VStr "2024-01-15 10:23:01"]);
                  ("level", [VStr "INFO"]);
                  ("message", [VStr "Service started"]) ]
         /\ length (to_datetime_coerce [VStr "2024-01-15 10:23:01"]) = 1).
Proof.
  assert (forall log w,
             length (PyStr.split_all log) < 4
             \/ length (PyStr.split_all (PyStr.strip log)) < 4 ->
             returned_frame (parse_logs [log] w)
             = Some [("timestamp", []); ("level", []); ("message", [])])
    as Hfew.
  { intros log w Hfew. apply parse_logs_no_rows; [exact Hlen|].
    unfold rows_of. simpl. apply parse_step_few.
    now apply PyStrFacts.few_tokens_few_fields. }
  split.
  { intros log parts. unfold parts. split; [apply PyStrFacts.split_length|].
    split; [apply PyStrFacts.split_length_le|].
    split; [apply PyStrFacts.split_join|].
    apply PyStrFacts.split_fields_no_space. }
  split; [exact PyStrFacts.split_all_length|].
  split.
  { intros data log ws Hws. unfold parse_step.
    now rewrite (PyStrFacts.strip_trailing log ws Hws). }
  split; [exact PyStrFacts.strip_last|].
  split; [exact PyStrFacts.strip_head|].
  split; [exact PyStrFacts.strip_split|].
  split; [intros data log parts Hfour; now apply parse_step_four|].
  split.
  { intros data log parts Hthree. apply parse_step_four.
    rewrite PyStrFacts.split_length. lia. }
  split.
  { intros data log Htwo. apply parse_step_few.
    rewrite PyStrFacts.split_length. lia. }
  split; [exact Hfew|].
  split.
  { intros log w Htwo. apply Hfew.
    rewrite !PyStrFacts.split_all_length. lia. }
  intros w. split; [|apply Hlen].
  rewrite (parse_logs_frame _ w Hlen).
  unfold survivors, coerced_frame, coerced.
  change (rows_of ["2024-01-15 10:23:01 INFO Service started"])
    with [[VStr "2024-01-15 10:23:01"; VStr "INFO"; VStr "Service started"]].
  simpl column.
  pose proof (Hlen [VStr "2024-01-15 10:23:01"]) as H1.
  destruct (to_datetime_coerce [VStr "2024-01-15 10:23:01"])
    as [|ts [|ts' rest]]; try discriminate.
  inversion Hts as [|? ? Hna _]; subst. simpl. now rewrite Hna.
Qed.

(** C5.  A line whose timestamp the conversion cannot read is dropped
    without a sound: [parse_logs] raises nothing and prints nothing, the
    frame it returns holds the rows whose converted timestamp is not
    null and no other, and what was dropped is kept nowhere in it. *)
Theorem parse_logs_drops_unparseable (Hlen : length_preserving) logs w :
  let data := rows_of logs in
  let ts := to_datetime_coerce (column 0 data) in
  let keep := map (fun v => negb (isna v)) ts in
  exists r w',
    parse_logs logs w = (Ok r, w')
    /\ stdout w' = stdout w
    /\ heap w' !! r
       = Some [ ("timestamp", Frame.select keep ts);
                ("level", Frame.select keep (column 1 data));
                ("message", Frame.select keep (column 2 data)) ]
    /\ Forall (fun v => isna v = false) (Frame.select keep ts)
    /\ length (Frame.select keep ts)
       = length (List.filter (fun v => negb (isna v)) ts)
    /\ (Forall (fun v => isna v = true) ts ->
        heap w' !! r = Some [("timestamp", []); ("level", []); ("message", [])]).
Proof.
  intros data ts keep.
  pose proof (parse_logs_run logs w Hlen) as Hrun. cbv zeta in Hrun.
  eexists _, _. split; [exact Hrun|].
  split; [reflexivity|].
  assert (heap
            (with_heap
               (<[fresh (dom (<[fresh (dom (heap w)) := coerced_frame logs]> (heap w)))
                  := Frame.select_rows (survivors logs) (coerced_frame logs)]>
                  (<[fresh (dom (heap w)) := coerced_frame logs]> (heap w))) w)
          !! fresh (dom (<[fresh (dom (heap w)) := coerced_frame logs]> (heap w)))
          = Some [ ("timestamp", Frame.select keep ts);
                   ("level", Frame.select keep (column 1 data));
                   ("message", Frame.select keep (column 2 data)) ]) as Hfr.
  { simpl heap. rewrite lookup_insert_eq. reflexivity. }
  split; [exact Hfr|].
  split; [apply FrameFacts.select_notna|].
  split.
  - unfold keep. rewrite FrameFacts.select_length by now rewrite length_map.
    clear. induction ts as [|v s IH]; simpl; [reflexivity|].
    destruct (isna v); simpl; auto.
  - intros Hnull. rewrite Hfr. f_equal.
    assert (Forall (fun b => b = false) keep) as Hf.
    { unfold keep. clear -Hnull. induction Hnull as [|v s Hv Hs IH]; simpl;
        constructor; [now rewrite Hv|exact IH]. }
    now rewrite !FrameFacts.select_all_false.
Qed.

End Parser.

(** The stand-in conversion gives one cell per cell. *)
Lemma standin_length_preserving : @length_preserving StandIn.pandas.
Proof. intros s. apply length_map. Qed.

Lemma parse_logs_fields_witness :
  @length_preserving StandIn.pandas
  /\ Forall (fun v => isna v = false)
       (@to_datetime_coerce StandIn.pandas [VStr "2024-01-15 10:23:01"])
  /\ returned_frame
       (@parse_logs StandIn.pandas StandIn.sklearn
          ["2024-01-15 10:23:01 INFO Service started"]
          (StandIn.world_with "system_logs.txt" [] 0))
     = Some [ ("timestamp", [VTime 20240115102301%Z]);
              ("level", [VStr "INFO"]);
              ("message", [VStr "Service started"]) ]
  /\ parse_step [] "2024-01-15 10:23:02 ERROR Disk write failed"
     = [[VStr "2024-01-15 10:23:02"; VStr "ERROR"; VStr "Disk write failed"]]
  /\ parse_step [] "2024-01-15 10:23:02 ERROR" = [].
Proof.
  assert (Forall (fun v => isna v = false)
            (@to_datetime_coerce StandIn.pandas [VStr "2024-01-15 10:23:01"]))
    as Hts by (vm_compute; repeat constructor).
  destruct (@parse_logs_fields StandIn.pandas StandIn.sklearn
              standin_length_preserving Hts)
    as (_ & _ & _ & _ & _ & _ & _ & Hkept & Hskipped & _ & _ & Hline).
  split; [exact standin_length_preserving|].
  split; [exact Hts|].
  split; [exact (proj1 (Hline (StandIn.world_with "system_logs.txt" [] 0)))|].
  split.
  - exact (Hkept [] "2024-01-15 10:23:02 ERROR Disk write failed"
             ltac:(vm_compute; lia)).
  - exact (Hskipped [] "2024-01-15 10:23:02 ERROR" ltac:(vm_compute; lia)).
Defined.

Lemma parse_logs_drops_unparseable_witness :
  @length_preserving StandIn.pandas
  /\ exists r w',
      @parse_logs StandIn.pandas StandIn.sklearn
        ["yesterday at-noon INFO Service guessed";
         "2024-01-15 10:23:01 INFO Service started"]
        (StandIn.world_with "system_logs.txt" [] 0) = (Ok r, w')
      /\ heap w' !! r
         = Some [ ("timestamp", [VTime 20240115102301%Z]);
                  ("level", [VStr "INFO"]);
                  ("message", [VStr "Service started"]) ].
Proof.
  split; [exact standin_length_preserving|].
  destruct (@parse_logs_drops_unparseable StandIn.pandas StandIn.sklearn
              standin_length_preserving
              ["yesterday at-noon INFO Service guessed";
               "2024-01-15 10:23:01 INFO Service started"]
              (StandIn.world_with "system_logs.txt" [] 0))
    as (r & w' & Hrun & _ & Hfr & _).
  exists r, w'. split; [exact Hrun|exact Hfr].
Defined.

(** ** The feature extractor *)

Section Features.

Context `{!Pandas} `{!Sklearn}.

Lemma expected_level_score_other level :
  level <> "INFO" -> level <> "WARNING" -> level <> "ERROR" ->
  level <> "CRITICAL" -> expected_level_score level = 0%Z.
Proof.
  intros H1 H2 H3 H4. unfold expected_level_score.
  apply String.eqb_neq in H1, H2, H3, H4. now rewrite H1, H2, H3, H4.
Qed.

Lemma feature_engineering_strings w r df levels messages :
  heap w !! r = Some df ->
  Frame.get_col df "level" = Some (map VStr levels) ->
  Frame.get_col df "message" = Some (map VStr messages) ->
  length levels = Frame.nrows df ->
  length messages = Frame.nrows df ->
  feature_engineering r w
  = (Ok r,
     with_heap
       (<[r := Frame.set_col
                 (Frame.set_col df "level_score" (level_scores levels))
                 "message_length" (message_lengths messages)]> (heap w)) w).
Proof.
  intros Hr Hlv Hmsg Hn1 Hn2.
  rewrite (feature_engineering_run w r df _ messages Hr Hlv Hmsg)
    by (rewrite ?length_map; assumption).
  now rewrite level_score_column.
Qed.

(** C6.  For every record the feature extractor sets [level_score] by the
    table INFO 1, WARNING 2, ERROR 3, CRITICAL 4 and 0 for any other level,
    which is no error, and [message_length] to the number of characters of
    the message; a record of level [CRITICAL] with the message ["x" * 37]
    gets 4 and 37, and the level [DEBUG] gets 0. *)
Theorem feature_engineering_mapping :
  (forall w r df levels messages,
      heap w !! r = Some df ->
      Frame.get_col df "level" = Some (map VStr levels) ->
      Frame.get_col df "message" = Some (map VStr messages) ->
      length levels = Frame.nrows df ->
      length messages = Frame.nrows df ->
      exists w' df',
        feature_engineering r w = (Ok r, w')
        /\ heap w' !! r = Some df'
        /\ Frame.get_col df' "level_score"
           = Some (map (fun l => VNum (expected_level_score l)) levels)
        /\ Frame.get_col df' "message_length"
           = Some (map (fun m => VNum (Z.of_nat (String.length m))) messages))
  /\ expected_level_score "INFO" = 1%Z
  /\ expected_level_score "WARNING" = 2%Z
  /\ expected_level_score "ERROR" = 3%Z
  /\ expected_level_score "CRITICAL" = 4%Z
  /\ expected_level_score "DEBUG" = 0%Z
  /\ (forall level,
         level <> "INFO" -> level <> "WARNING" -> level <> "ERROR" ->
         level <> "CRITICAL" -> expected_level_score level = 0%Z)
  /\ (forall w r ts level,
         heap w !! r
         = Some [("timestamp", [ts]); ("level", [VStr level]);
                 ("message", [VStr (str_mul "x" 37)])] ->
         level = "CRITICAL" \/ level = "DEBUG" ->
         returned_frame (feature_engineering r w)
         = Some [("timestamp", [ts]); ("level", [VStr level]);
                 ("message", [VStr (str_mul "x" 37)]);
                 ("level_score",
                   [VNum (if String.eqb level "CRITICAL" then 4 else 0)]);
                 ("message_length", [VNum 37])]).
Proof.
  split; [|repeat split; try reflexivity].
  - intros w r df levels messages Hr Hlv Hmsg Hn1 Hn2.
    eexists _, _. split;
      [exact (feature_engineering_strings w r df levels messages
                Hr Hlv Hmsg Hn1 Hn2)|].
    split; [apply lookup_insert_eq|]. split.
    + rewrite FrameFacts.get_set_ne by discriminate.
      apply FrameFacts.get_set_eq.
    + apply FrameFacts.get_set_eq.
  - apply expected_level_score_other.
  - intros w r ts level Hr Hlevel.
    rewrite (feature_engineering_strings w r _ [level] [str_mul "x" 37] Hr)
      by reflexivity.
    unfold returned_frame. simpl heap. rewrite lookup_insert_eq.
    destruct Hlevel as [-> | ->]; reflexivity.
Qed.

End Features.

Lemma feature_engineering_mapping_witness :
  returned_frame
    (@feature_engineering StandIn.sklearn 0
       {| heap := {[ 0 := [("timestamp", [VTime 20240115102305%Z]);
                           ("level", [VStr "CRITICAL"]);
                           ("message", [VStr (str_mul "x" 37)])] ]};
          stdout := []; np_random := (0 : @RandomState StandIn.sklearn);
          files := fun _ => NotFound |})
  = Some [("timestamp", [VTime 20240115102305%Z]); ("level", [VStr "CRITICAL"]);
          ("message", [VStr (str_mul "x" 37)]);
          ("level_score", [VNum 4]); ("message_length", [VNum 37])].
Proof.
  refine (proj2 (proj2 (proj2 (proj2 (proj2 (proj2 (proj2
    (@feature_engineering_mapping StandIn.sklearn))))))) _ 0 _ "CRITICAL" _ _).
  - apply lookup_singleton_eq.
  - left. reflexivity.
Defined.

(** ** The three stages in a row *)

Section Pipeline.

Context `{!Pandas} `{!Sklearn}.

Lemma select_map {A B} (f : A -> B) mask (l : list A) :
  Frame.select mask (map f l) = map f (Frame.select mask l).
Proof.
  revert l. induction mask as [|b mask IH]; intros [|x l]; simpl; auto.
  destruct b; simpl; now rewrite IH.
Qed.

Lemma row_of_strings log j :
  j = 1 \/ j = 2 ->
  column j (row_of log) = map VStr (map text (column j (row_of log))).
Proof.
  intros Hj. unfold row_of, parse_step.
  destruct (length (PyStr.split 3 (PyStr.strip log)) <? 4)%nat;
    [reflexivity|].
  destruct Hj as [-> | ->]; reflexivity.
Qed.

Lemma column_app j a b : column j (a ++ b)%list = (column j a ++ column j b)%list.
Proof. unfold column. apply map_app. Qed.

Lemma rows_of_strings logs j :
  j = 1 \/ j = 2 ->
  column j (rows_of logs) = map VStr (map text (column j (rows_of logs))).
Proof.
  intros Hj. induction logs as [|log logs IH]; [reflexivity|].
  rewrite rows_of_cons, column_app, !map_app, <- IH, <- row_of_strings by exact Hj.
  reflexivity.
Qed.

Lemma parsed_frame_eq logs :
  Frame.select_rows (survivors logs) (coerced_frame logs) = parsed_frame logs.
Proof.
  unfold parsed_frame, kept_levels, kept_messages, coerced_frame,
    Frame.select_rows. simpl map.
  rewrite <- !select_map, <- !rows_of_strings by auto. reflexivity.
Qed.

Lemma survivors_length logs :
  length_preserving -> length (survivors logs) = length (rows_of logs).
Proof.
  intros Hlen. unfold survivors, coerced.
  now rewrite length_map, Hlen, column_length.
Qed.

Lemma kept_levels_length logs :
  length_preserving ->
  length (kept_levels logs) = length (Frame.select (survivors logs) (coerced logs)).
Proof.
  intros Hlen. unfold kept_levels.
  rewrite length_map, !FrameFacts.select_length; [reflexivity| |].
  - unfold survivors. now rewrite length_map.
  - now rewrite survivors_length, column_length.
Qed.

Lemma kept_messages_length logs :
  length_preserving ->
  length (kept_messages logs) = length (kept_levels logs).
Proof.
  intros Hlen. unfold kept_levels, kept_messages.
  rewrite !length_map, !FrameFacts.select_length; [reflexivity| |];
    now rewrite survivors_length, column_length.
Qed.

Lemma parsed_frame_nrows logs :
  length_preserving -> Frame.nrows (parsed_frame logs) = length (kept_levels logs).
Proof. intros Hlen. simpl. now rewrite kept_levels_length. Qed.

Lemma parse_logs_parsed logs w :
  length_preserving ->
  parse_logs logs w
  = (Ok (parsed_at logs (heap w)),
     with_heap (<[parsed_at logs (heap w) := parsed_frame logs]>
                  (heap_after_parse logs (heap w))) w).
Proof.
  intros Hlen. rewrite (parse_logs_run logs w Hlen), parsed_frame_eq.
  reflexivity.
Qed.

Lemma features_run logs w :
  length_preserving ->
  let r := parsed_at logs (heap w) in
  bind (parse_logs logs) feature_engineering w
  = (Ok r,
     with_heap
       (<[r := (parsed_frame logs ++
                [("level_score", level_scores (kept_levels logs));
                 ("message_length", message_lengths (kept_messages logs))])%list]>
          (heap_after_parse logs (heap w))) w).
Proof.
  intros Hlen r.
  rewrite (bind_ok _ _ _ _ _ (parse_logs_parsed logs w Hlen)).
  fold r.
  rewrite (feature_engineering_strings _ r (parsed_frame logs)
             (kept_levels logs) (kept_messages logs)).
  - unfold with_heap. simpl. do 2 f_equal. apply insert_insert_eq.
  - apply lookup_insert_eq.
  - reflexivity.
  - reflexivity.
  - now rewrite parsed_frame_nrows.
  - now rewrite parsed_frame_nrows, kept_messages_length.
Qed.

Lemma analyse_run logs c w preds g' :
  length_preserving ->
  IsolationForest_fit_predict (forest c) (np_random w) (features logs)
  = (Ok preds, g') ->
  length preds = length (kept_levels logs) ->
  let r := parsed_at logs (heap w) in
  analyse logs c w
  = (Ok r,
     {| heap := <[r := analysed_frame logs preds]>
                  (heap_after_parse logs (heap w));
        stdout := stdout w; np_random := g'; files := files w |}).
Proof.
  intros Hlen Hfit Hn r. unfold analyse.
  pose proof (features_run logs w Hlen) as Hfe. cbv zeta in Hfe. fold r in Hfe.
  unfold bind at 1 in Hfe. unfold bind at 1.
  destruct (parse_logs logs w) as [[r0|e] w0]; [|discriminate].
  rewrite (bind_ok _ _ _ _ _ Hfe).
  set (df := (parsed_frame logs ++
               [("level_score", level_scores (kept_levels logs));
                ("message_length", message_lengths (kept_messages logs))])%list).
  rewrite (detect_anomalies_run _ r df c
             (level_scores (kept_levels logs))
             (message_lengths (kept_messages logs)) preds g').
  - unfold with_heap. simpl. do 2 f_equal.
    rewrite insert_insert_eq. reflexivity.
  - simpl heap. apply lookup_insert_eq.
  - reflexivity.
  - reflexivity.
  - exact Hfit.
  - simpl. rewrite <- kept_levels_length by exact Hlen. exact Hn.
Qed.

End Pipeline.

Section Alignment.

Context `{!Pandas} `{!Sklearn}.

Lemma rows_of_well_formed logs :
  Forall well_formed logs ->
  rows_of logs
  = map (fun log => [VStr (timestamp_str log); VStr (field 2 log);
                     VStr (field 3 log)]) logs.
Proof.
  intros Hwf. induction Hwf as [|log logs Hlog Hlogs IH]; [reflexivity|].
  rewrite rows_of_cons, IH. unfold row_of.
  rewrite (parse_step_four [] log Hlog). reflexivity.
Qed.

Lemma map_readable preds :
  map readable (map VNum preds)
  = map (fun p => VStr (if Z.eqb p (-1) then ANOMALY else NORMAL)) preds.
Proof. rewrite map_map. apply map_ext. intros p. apply readable_num. Qed.

Lemma survivors_all logs :
  Forall (fun v => isna v = false) (coerced logs) ->
  Forall (fun b => b = true) (survivors logs).
Proof.
  unfold survivors. intros Hall.
  induction Hall as [|v s Hv Hs IH]; simpl; constructor;
    [now rewrite Hv|exact IH].
Qed.

Lemma kept_all logs :
  length_preserving ->
  Forall well_formed logs ->
  Forall (fun v => isna v = false) (coerced logs) ->
  coerced logs = to_datetime_coerce (map (fun log => VStr (timestamp_str log)) logs)
  /\ Frame.select (survivors logs) (coerced logs) = coerced logs
  /\ kept_levels logs = map (field 2) logs
  /\ kept_messages logs = map (field 3) logs.
Proof.
  intros Hlen Hwf Hts.
  pose proof (survivors_all logs Hts) as Hall.
  pose proof (survivors_length logs Hlen) as Hsl.
  unfold kept_levels, kept_messages.
  rewrite !FrameFacts.select_all_true; try exact Hall;
    try (now rewrite Hsl, column_length);
    try (unfold survivors; now rewrite length_map).
  unfold coerced, column. rewrite (rows_of_well_formed logs Hwf), !map_map.
  repeat split; reflexivity.
Qed.

(** C7.  For a sequence of N lines that all have four fields and a
    timestamp that can be read, the feature extractor and the detector each
    give N rows, and the i-th row of each stage is built from the i-th
    line: its level, its message, the score of its level, the length of its
    message, and the i-th prediction with its label. *)
Theorem stages_aligned
  (Hlen : length_preserving) logs c w preds g'
  (Hwf : Forall well_formed logs)
  (Hts : Forall (fun v => isna v = false) (coerced logs))
  (Hfit : IsolationForest_fit_predict (forest c) (np_random w)
            [ ("level_score", level_scores (map (field 2) logs));
              ("message_length", message_lengths (map (field 3) logs)) ]
          = (Ok preds, g'))
  (Hn : length preds = length logs) :
  let timestamps :=
    to_datetime_coerce (map (fun log => VStr (timestamp_str log)) logs) in
  let extracted :=
    [ ("timestamp", timestamps);
      ("level", map (fun log => VStr (field 2 log)) logs);
      ("message", map (fun log => VStr (field 3 log)) logs);
      ("level_score",
        map (fun log => VNum (expected_level_score (field 2 log))) logs);
      ("message_length",
        map (fun log => VNum (Z.of_nat (String.length (field 3 log)))) logs) ] in
  let detected :=
    (extracted ++
     [ ("anomaly", map VNum preds);
       ("is_anomaly",
         map (fun p => VStr (if Z.eqb p (-1) then ANOMALY else NORMAL)) preds) ])%list in
  returned_frame (bind (parse_logs logs) feature_engineering w) = Some extracted
  /\ returned_frame (analyse logs c w) = Some detected
  /\ Forall (fun '(_, s) => length s = length logs) detected.
Proof.
  intros timestamps extracted detected.
  destruct (kept_all logs Hlen Hwf Hts) as (Hco & Hsel & Hlv & Hmsg).
  assert (parsed_frame logs
          = [ ("timestamp", timestamps);
              ("level", map (fun log => VStr (field 2 log)) logs);
              ("message", map (fun log => VStr (field 3 log)) logs) ]) as Hpf.
  { unfold parsed_frame. rewrite Hsel, Hlv, Hmsg, Hco, !map_map. reflexivity. }
  split; [|split].
  - rewrite (features_run logs w Hlen). unfold returned_frame, with_heap.
    cbn [heap]. rewrite lookup_insert_eq, Hpf, Hlv, Hmsg.
    unfold level_scores, message_lengths. rewrite !map_map. reflexivity.
  - rewrite (analyse_run logs c w preds g' Hlen).
    + unfold returned_frame. cbn [heap]. rewrite lookup_insert_eq.
      unfold analysed_frame. rewrite Hpf, Hlv, Hmsg, map_readable.
      unfold level_scores, message_lengths. rewrite !map_map.
      reflexivity.
    + unfold features. rewrite Hlv, Hmsg. exact Hfit.
    + rewrite Hlv, length_map. exact Hn.
  - unfold detected, extracted, timestamps. simpl app.
    repeat constructor; rewrite ?Hlen, ?length_map; auto.
Qed.

End Alignment.

Lemma stages_aligned_witness :
  exists df,
    returned_frame
      (@analyse StandIn.pandas StandIn.sklearn StandIn.clean_log (1 # 10)
         StandIn.start) = Some df
    /\ Frame.nrows df = 6
    /\ Frame.get_col df "level_score"
       = Some [VNum 1; VNum 1; VNum 1; VNum 1; VNum 4; VNum 1]
    /\ Frame.get_col df "is_anomaly"
       = Some [VStr NORMAL; VStr NORMAL; VStr NORMAL; VStr NORMAL;
               VStr ANOMALY; VStr NORMAL].
Proof.
  assert (Forall well_formed StandIn.clean_log) as Hwf
    by (repeat (constructor; [reflexivity|]); constructor).
  assert (Forall (fun v => isna v = false)
            (@coerced StandIn.pandas StandIn.clean_log)) as Hts
    by (vm_compute; repeat constructor).
  assert (@IsolationForest_fit_predict StandIn.sklearn (forest (1 # 10))
            (np_random StandIn.start)
            [ ("level_score", level_scores (map (field 2) StandIn.clean_log));
              ("message_length",
                message_lengths (map (field 3) StandIn.clean_log)) ]
          = (Ok [1; 1; 1; 1; -1; 1]%Z, 0)) as Hfit
    by (vm_compute; reflexivity).
  eexists. split.
  - exact (proj1 (proj2
      (@stages_aligned StandIn.pandas StandIn.sklearn
         standin_length_preserving StandIn.clean_log (1 # 10) StandIn.start
         [1; 1; 1; 1; -1; 1]%Z 0 Hwf Hts Hfit eq_refl))).
  - repeat split; reflexivity.
Defined.

(** ** The detector *)

Section Detector.

Context `{!Pandas} `{!Sklearn}.

Lemma detect_anomalies_no_score w r df c :
  heap w !! r = Some df ->
  Frame.get_col df "level_score" = None ->
  detect_anomalies r c w = (Raise (KeyError "level_score"), w).
Proof.
  intros Hr Hls. unfold detect_anomalies. simpl getitems. unfold bind.
  now rewrite (getitem_missing w r df _ Hr Hls).
Qed.

Lemma detect_anomalies_no_length w r df c ls :
  heap w !! r = Some df ->
  Frame.get_col df "level_score" = Some ls ->
  Frame.get_col df "message_length" = None ->
  detect_anomalies r c w = (Raise (KeyError "message_length"), w).
Proof.
  intros Hr Hls Hml. unfold detect_anomalies. simpl getitems. unfold bind.
  now rewrite (getitem_ok w r df _ _ Hr Hls), (getitem_missing w r df _ Hr Hml).
Qed.

Lemma detect_anomalies_library_raises w r df c ls ml e g' :
  heap w !! r = Some df ->
  Frame.get_col df "level_score" = Some ls ->
  Frame.get_col df "message_length" = Some ml ->
  IsolationForest_fit_predict (forest c) (np_random w)
    [("level_score", ls); ("message_length", ml)] = (Raise e, g') ->
  detect_anomalies r c w = (Raise e, with_np_random g' w).
Proof.
  intros Hr Hls Hml Hfit. unfold detect_anomalies.
  rewrite (bind_ok _ _ _ _ _ (getitems_features w r df ls ml Hr Hls Hml)).
  fold (forest c). unfold bind, fit_predict. now rewrite Hfit.
Qed.

Lemma detect_anomalies_bad_length w r df c ls ml preds g' :
  heap w !! r = Some df ->
  Frame.get_col df "level_score" = Some ls ->
  Frame.get_col df "message_length" = Some ml ->
  IsolationForest_fit_predict (forest c) (np_random w)
    [("level_score", ls); ("message_length", ml)] = (Ok preds, g') ->
  length preds <> Frame.nrows df ->
  detect_anomalies r c w
  = (Raise (ValueError "Length of values does not match length of index"),
     with_np_random g' w).
Proof.
  intros Hr Hls Hml Hfit Hn. unfold detect_anomalies.
  rewrite (bind_ok _ _ _ _ _ (getitems_features w r df ls ml Hr Hls Hml)).
  fold (forest c).
  assert (fit_predict (forest c) [("level_score", ls); ("message_length", ml)] w
          = (Ok preds, with_np_random g' w)) as Hfp
    by (unfold fit_predict; now rewrite Hfit).
  rewrite (bind_ok _ _ _ _ _ Hfp).
  unfold bind at 1. unfold setitem.
  assert (heap (with_np_random g' w) !! r = Some df) as Hr1 by exact Hr.
  rewrite (bind_ok _ _ _ _ _ (load_ok _ _ _ Hr1)).
  assert (((length df =? 0) || (length (map VNum preds) =? Frame.nrows df))%nat
          = false) as ->.
  { apply orb_false_iff. split.
    - destruct df; [discriminate|reflexivity].
    - apply Nat.eqb_neq. now rewrite length_map. }
  reflexivity.
Qed.

(** What a call leaves at [r] depends on the frame and on what the estimator
    answers, and on nothing else of the world. *)
Lemma detect_anomalies_same_answer c w1 w2 r1 r2 df :
  heap w1 !! r1 = Some df ->
  heap w2 !! r2 = Some df ->
  (forall X, fst (IsolationForest_fit_predict (forest c) (np_random w1) X)
             = fst (IsolationForest_fit_predict (forest c) (np_random w2) X)) ->
  outcome_on r1 (detect_anomalies r1 c w1)
  = outcome_on r2 (detect_anomalies r2 c w2).
Proof.
  intros H1 H2 Hsame.
  destruct (Frame.get_col df "level_score") as [ls|] eqn:Hls.
  2:{ rewrite (detect_anomalies_no_score w1 r1 df c H1 Hls),
        (detect_anomalies_no_score w2 r2 df c H2 Hls).
      unfold outcome_on. simpl. now rewrite H1, H2. }
  destruct (Frame.get_col df "message_length") as [ml|] eqn:Hml.
  2:{ rewrite (detect_anomalies_no_length w1 r1 df c ls H1 Hls Hml),
        (detect_anomalies_no_length w2 r2 df c ls H2 Hls Hml).
      unfold outcome_on. simpl. now rewrite H1, H2. }
  specialize (Hsame [("level_score", ls); ("message_length", ml)]).
  destruct (IsolationForest_fit_predict (forest c) (np_random w1) _)
    as [res1 g1] eqn:Hf1.
  destruct (IsolationForest_fit_predict (forest c) (np_random w2) _)
    as [res2 g2] eqn:Hf2.
  simpl in Hsame. subst res2. destruct res1 as [preds|e].
  - destruct (Nat.eq_dec (length preds) (Frame.nrows df)) as [Hn|Hn].
    + rewrite (detect_anomalies_run w1 r1 df c ls ml preds g1 H1 Hls Hml Hf1 Hn),
        (detect_anomalies_run w2 r2 df c ls ml preds g2 H2 Hls Hml Hf2 Hn).
      unfold outcome_on. cbn [fst snd heap].
      now rewrite !lookup_insert_eq.
    + rewrite (detect_anomalies_bad_length w1 r1 df c ls ml preds g1
                 H1 Hls Hml Hf1 Hn),
        (detect_anomalies_bad_length w2 r2 df c ls ml preds g2
           H2 Hls Hml Hf2 Hn).
      unfold outcome_on. simpl. now rewrite H1, H2.
  - rewrite (detect_anomalies_library_raises w1 r1 df c ls ml e g1
               H1 Hls Hml Hf1),
      (detect_anomalies_library_raises w2 r2 df c ls ml e g2 H2 Hls Hml Hf2).
    unfold outcome_on. simpl. now rewrite H1, H2.
Qed.

(** C3.  Two runs of [detect_anomalies] on the same frame with the same
    contamination end alike, whatever else differs between the two worlds,
    the state of NumPy's global generator included: the same exception or
    none, and the same frame, predictions and labels with it.  The
    estimator is taken to answer a seeded call by its arguments alone. *)
Theorem detect_anomalies_deterministic
  (Hseeded : forall model g1 g2 X,
      random_state model <> None ->
      fst (IsolationForest_fit_predict model g1 X)
      = fst (IsolationForest_fit_predict model g2 X))
  c w1 w2 r1 r2 df :
  heap w1 !! r1 = Some df ->
  heap w2 !! r2 = Some df ->
  outcome_on r1 (detect_anomalies r1 c w1)
  = outcome_on r2 (detect_anomalies r2 c w2).
Proof.
  intros H1 H2. apply (detect_anomalies_same_answer c w1 w2 r1 r2 df H1 H2).
  intros X. apply Hseeded. discriminate.
Qed.


End Detector.

(** *** The stand-in estimator *)

Lemma label_by_contamination_length c scores :
  length (label_by_contamination c scores) = length scores.
Proof. unfold label_by_contamination. now rewrite length_map, length_seq. Qed.

Lemma standin_seeded model g1 g2 X :
  random_state model <> None ->
  fst (@IsolationForest_fit_predict StandIn.sklearn model g1 X)
  = fst (@IsolationForest_fit_predict StandIn.sklearn model g2 X).
Proof.
  intros Hs. simpl. unfold StandIn.fit_predict_impl.
  destruct (Frame.nrows X =? 0)%nat; [reflexivity|].
  destruct (StandIn.scores _ X); [|reflexivity].
  destruct (random_state model); [reflexivity|congruence].
Qed.

(** Without a seed the stand-in answers by the state of the generator. *)
Example standin_unseeded_differs :
  fst (StandIn.fit_predict_impl {| contamination := 1 # 10; random_state := None |}
         0 [("level_score", [VNum 1; VNum 1; VNum 1; VNum 1; VNum 1; VNum 1])])
  <> fst (StandIn.fit_predict_impl
            {| contamination := 1 # 10; random_state := None |}
            1 [("level_score", [VNum 1; VNum 1; VNum 1; VNum 1; VNum 1; VNum 1])]).
Proof. vm_compute. discriminate. Qed.

Lemma standin_numeric_column s :
  numeric s ->
  exists zs, StandIn.numeric_column s = Some zs /\ length zs = length s.
Proof.
  induction 1 as [|v s [z ->] _ (zs & Hzs & Hlen)]; simpl.
  - now exists [].
  - rewrite Hzs. exists (z :: zs). simpl. auto.
Qed.

Lemma add_columns_length a b :
  length (StandIn.add_columns a b) = Nat.min (length a) (length b).
Proof.
  revert b. induction a as [|x a IH]; intros [|y b]; simpl; auto.
Qed.

Lemma standin_scores ls ml :
  length ml = length ls -> numeric ls -> numeric ml ->
  exists sc,
    StandIn.scores (length ls) [("level_score", ls); ("message_length", ml)]
    = Some sc
    /\ length sc = length ls.
Proof.
  intros Hlen Hls Hml.
  destruct (standin_numeric_column ls Hls) as (c1 & H1 & L1).
  destruct (standin_numeric_column ml Hml) as (c2 & H2 & L2).
  simpl. rewrite H1, H2. eexists. split; [reflexivity|].
  unfold StandIn.spread.
  rewrite !add_columns_length, !length_map, repeat_length. lia.
Qed.

Lemma standin_total c g ls ml :
  ls <> [] -> length ml = length ls -> numeric ls -> numeric ml ->
  exists preds g',
    @IsolationForest_fit_predict StandIn.sklearn (forest c) g
      [("level_score", ls); ("message_length", ml)] = (Ok preds, g')
    /\ length preds = length ls.
Proof.
  intros Hne Hlen Hls Hml.
  destruct (standin_scores ls ml Hlen Hls Hml) as (sc & Hsc & Lsc).
  cbn [IsolationForest_fit_predict StandIn.sklearn].
  unfold StandIn.fit_predict_impl. cbn [Frame.nrows].
  destruct ls as [|v ls]; [congruence|].
  cbn [length Nat.eqb]. cbn [length] in Hsc. rewrite Hsc.
  cbn [forest random_state]. eexists _, _. split; [reflexivity|].
  now rewrite length_map, label_by_contamination_length, length_map.
Qed.

Lemma detect_anomalies_deterministic_witness :
  outcome_on 0
    (@detect_anomalies StandIn.sklearn 0 (1 # 10)
       (StandIn.holding 0 StandIn.mixed_vectors 0))
  = outcome_on 3
      (@detect_anomalies StandIn.sklearn 3 (1 # 10)
         (StandIn.holding 3 StandIn.mixed_vectors 7)).
Proof.
  apply (@detect_anomalies_deterministic StandIn.sklearn standin_seeded
           (1 # 10) (StandIn.holding 0 StandIn.mixed_vectors 0)
           (StandIn.holding 3 StandIn.mixed_vectors 7) 0 3
           StandIn.mixed_vectors);
    reflexivity.
Defined.



(** ** What the detector returns *)

Section Scores.

Context `{!Pandas} `{!Sklearn}.

Lemma map_label_of preds : map readable (map VNum preds) = map label_of preds.
Proof. rewrite map_map. apply map_ext. intros p. apply readable_num. Qed.

Lemma prediction_no_score p :
  prediction p ->
  (p = (-1)%Z /\ label_of p = VStr ANOMALY /\ ~ unit_score (VNum p))
  \/ (p = 1%Z /\ label_of p = VStr NORMAL).
Proof.
  intros [->| ->]; [left|right]; repeat split; try reflexivity.
  intros (z & [= <-] & Hz). lia.
Qed.

(** C1 (amended).  On a frame with the two feature columns, when the
    estimator answers with one prediction of -1 or 1 per row,
    [detect_anomalies] returns the frame it was given with two columns set
    and every other column as it was, one cell per row in the order of the
    rows: [anomaly] holds the prediction itself and [is_anomaly] the label,
    the anomaly label where the prediction is -1 and the normal label where
    it is 1.  No score between 0 and 1 is computed or returned. *)
Theorem detect_anomalies_predictions c w r df ls ml preds g'
  (Hr : heap w !! r = Some df)
  (Hls : Frame.get_col df "level_score" = Some ls)
  (Hml : Frame.get_col df "message_length" = Some ml)
  (Hfit : IsolationForest_fit_predict (forest c) (np_random w)
            [("level_score", ls); ("message_length", ml)] = (Ok preds, g'))
  (Hn : length preds = Frame.nrows df)
  (Hpm : Forall prediction preds) :
  exists w' df',
    detect_anomalies r c w = (Ok r, w')
    /\ heap w' !! r = Some df'
    /\ Frame.col_names df'
       = add_name (add_name (Frame.col_names df) "anomaly") "is_anomaly"
    /\ (forall n, n <> "anomaly" -> n <> "is_anomaly" ->
                  Frame.get_col df' n = Frame.get_col df n)
    /\ Frame.get_col df' "anomaly" = Some (map VNum preds)
    /\ Frame.get_col df' "is_anomaly" = Some (map label_of preds)
    /\ length (map VNum preds) = Frame.nrows df
    /\ length (map label_of preds) = Frame.nrows df
    /\ Forall (fun p =>
                 (p = (-1)%Z /\ label_of p = VStr ANOMALY
                  /\ ~ unit_score (VNum p))
                 \/ (p = 1%Z /\ label_of p = VStr NORMAL)) preds.
Proof.
  eexists _, _. split;
    [exact (detect_anomalies_run w r df c ls ml preds g' Hr Hls Hml Hfit Hn)|].
  split; [cbn [heap]; apply lookup_insert_eq|].
  split; [now rewrite !FrameFacts.col_names_set|].
  split.
  { intros n Ha Hi.
    rewrite FrameFacts.get_set_ne by congruence.
    now rewrite FrameFacts.get_set_ne by congruence. }
  split.
  { rewrite FrameFacts.get_set_ne by discriminate.
    apply FrameFacts.get_set_eq. }
  split; [rewrite <- map_label_of; apply FrameFacts.get_set_eq|].
  split; [now rewrite length_map|].
  split; [now rewrite length_map|].
  eapply List.Forall_impl; [|exact Hpm]. exact prediction_no_score.
Qed.

End Scores.

Lemma detect_anomalies_predictions_witness :
  exists w' df',
    @detect_anomalies StandIn.sklearn 0 (1 # 10)
      (StandIn.holding 0 StandIn.mixed_vectors 0) = (Ok 0, w')
    /\ heap w' !! 0 = Some df'
    /\ Frame.get_col df' "anomaly"
       = Some [VNum 1; VNum 1; VNum 1; VNum 1; VNum (-1); VNum 1]
    /\ Frame.get_col df' "is_anomaly"
       = Some [VStr NORMAL; VStr NORMAL; VStr NORMAL; VStr NORMAL;
               VStr ANOMALY; VStr NORMAL].
Proof.
  destruct (@detect_anomalies_predictions StandIn.sklearn (1 # 10)
              (StandIn.holding 0 StandIn.mixed_vectors 0) 0
              StandIn.mixed_vectors
              [VNum 1; VNum 1; VNum 1; VNum 1; VNum 4; VNum 1]
              [VNum 15; VNum 15; VNum 15; VNum 15; VNum 48; VNum 15]
              [1; 1; 1; 1; -1; 1]%Z 0
              eq_refl eq_refl eq_refl eq_refl eq_refl
              ltac:(repeat constructor; unfold prediction; lia))
    as (w' & df' & Hrun & Hdf & _ & _ & Ha & Hl & _).
  exists w', df'. repeat split; assumption.
Defined.

(** C1, as stated, fails.  On six rows of which the stand-in estimator
    flags the fifth, the frame that [detect_anomalies] returns has the
    columns of its input and [anomaly] and [is_anomaly] besides; the first
    holds a -1 and the second holds text, so that no column it adds is a
    column of scores above 0 and at most 1. *)
Lemma detect_anomalies_score_counterexample :
  exists df',
    returned_frame
      (@detect_anomalies StandIn.sklearn 0 (1 # 10)
         (StandIn.holding 0 StandIn.mixed_vectors 0)) = Some df'
    /\ Frame.col_names df'
       = ["timestamp"; "level"; "message"; "level_score"; "message_length";
          "anomaly"; "is_anomaly"]
    /\ Frame.get_col df' "anomaly"
       = Some [VNum 1; VNum 1; VNum 1; VNum 1; VNum (-1); VNum 1]
    /\ (forall name col,
           Frame.get_col df' name = Some col ->
           Frame.get_col StandIn.mixed_vectors name = None ->
           ~ Forall unit_score col).
Proof.
  eexists. split; [vm_compute; reflexivity|].
  split; [reflexivity|]. split; [reflexivity|].
  intros name col Hcol Hnew Hall.
  cbn [Frame.get_col StandIn.mixed_vectors] in Hcol, Hnew.
  repeat match type of Hnew with
         | (if String.eqb ?a name then _ else _) = None =>
             destruct (String.eqb a name); [discriminate|]
         end.
  destruct (String.eqb "anomaly" name).
  - injection Hcol as <-.
    do 4 (apply Forall_inv_tail in Hall). apply Forall_inv in Hall.
    destruct Hall as (z & [= <-] & Hz). lia.
  - destruct (String.eqb "is_anomaly" name); [|discriminate].
    injection Hcol as <-. apply Forall_inv in Hall.
    destruct Hall as (z & Hz & _). discriminate.
Qed.

(** ** The frame of the two mutating stages *)

Section InPlace.

Context `{!Pandas} `{!Sklearn}.

Lemma bind_inv {A B} (m : M A) (k : A -> M B) w b w' :
  bind m k w = (Ok b, w') ->
  exists a w1, m w = (Ok a, w1) /\ k a w1 = (Ok b, w').
Proof. unfold bind. destruct (m w) as [[a|e] w1]; [eauto|discriminate]. Qed.

Lemma getitem_inv w r n s w' :
  getitem r n w = (Ok s, w') ->
  w' = w /\ exists d, heap w !! r = Some d /\ Frame.get_col d n = Some s.
Proof.
  unfold getitem, bind, load. destruct (heap w !! r) as [d|]; [|discriminate].
  destruct (Frame.get_col d n) as [s0|] eqn:Hs; [|discriminate].
  intros [= <- <-]. eauto.
Qed.

Lemma getitems_inv names w r X w' : getitems r names w = (Ok X, w') -> w' = w.
Proof.
  revert X w'. induction names as [|n rest IH]; simpl; intros X w'.
  - now intros [= _ <-].
  - intros Hb. apply bind_inv in Hb as (s & w1 & Hs & Hb).
    apply getitem_inv in Hs as [-> _].
    apply bind_inv in Hb as (d & w2 & Hd & Hb).
    apply IH in Hd as ->. now injection Hb as _ <-.
Qed.

Lemma setitem_inv w r n s u w' :
  setitem r n s w = (Ok u, w') ->
  exists d, heap w !! r = Some d
            /\ w' = with_heap (<[r := Frame.set_col d n s]> (heap w)) w.
Proof.
  unfold setitem, bind, load. destruct (heap w !! r) as [d|]; [|discriminate].
  destruct ((length d =? 0) || (length s =? Frame.nrows d))%nat; [|discriminate].
  unfold store. intros [= _ <-]. eauto.
Qed.

Lemma fit_predict_inv model X w preds w' :
  fit_predict model X w = (Ok preds, w') ->
  heap w' = heap w /\ stdout w' = stdout w.
Proof.
  unfold fit_predict.
  destruct (IsolationForest_fit_predict model (np_random w) X) as [res g].
  now intros [= _ <-].
Qed.

(** Two assignments in a row to the columns [a] and [b] of the object at
    [r]. *)
Lemma two_assignments df a b (sa sb : Series) :
  let df' := Frame.set_col (Frame.set_col df a sa) b sb in
  Frame.col_names df' = add_name (add_name (Frame.col_names df) a) b
  /\ (forall n, n <> a -> n <> b -> Frame.get_col df' n = Frame.get_col df n).
Proof.
  split; [now rewrite !FrameFacts.col_names_set|].
  intros n Ha Hb.
  rewrite FrameFacts.get_set_ne by congruence.
  now rewrite FrameFacts.get_set_ne by congruence.
Qed.

(** C10.  When [feature_engineering] or [detect_anomalies] returns, what it
    returns is the object it was given; that object is the only one of the
    heap that has changed, no object is created and nothing is printed.
    The columns [timestamp], [level] and [message] of the object, and every
    other column but the two the stage assigns, are what they were; the
    stage's two names, [level_score] and [message_length] for the first and
    [anomaly] and [is_anomaly] for the second, are the only ones that join
    the column names. *)
Theorem stages_mutate_in_place :
  (forall w r r' w',
      feature_engineering r w = (Ok r', w') ->
      r' = r /\ stdout w' = stdout w
      /\ exists df df',
          heap w !! r = Some df
          /\ heap w' = <[r := df']> (heap w)
          /\ Frame.col_names df'
             = add_name (add_name (Frame.col_names df) "level_score")
                 "message_length"
          /\ (forall n, n <> "level_score" -> n <> "message_length" ->
                        Frame.get_col df' n = Frame.get_col df n)
          /\ Frame.get_col df' "timestamp" = Frame.get_col df "timestamp"
          /\ Frame.get_col df' "level" = Frame.get_col df "level"
          /\ Frame.get_col df' "message" = Frame.get_col df "message")
  /\ (forall w r c r' w',
         detect_anomalies r c w = (Ok r', w') ->
         r' = r /\ stdout w' = stdout w
         /\ exists df df',
             heap w !! r = Some df
             /\ heap w' = <[r := df']> (heap w)
             /\ Frame.col_names df'
                = add_name (add_name (Frame.col_names df) "anomaly")
                    "is_anomaly"
             /\ (forall n, n <> "anomaly" -> n <> "is_anomaly" ->
                           Frame.get_col df' n = Frame.get_col df n)
             /\ Frame.get_col df' "timestamp" = Frame.get_col df "timestamp"
             /\ Frame.get_col df' "level" = Frame.get_col df "level"
             /\ Frame.get_col df' "message" = Frame.get_col df "message").
Proof.
  split.
  - intros w r r' w' Hrun. unfold feature_engineering in Hrun.
    apply bind_inv in Hrun as (lv & w1 & Hlv & Hrun).
    apply getitem_inv in Hlv as (-> & df & Hdf & Hlv).
    apply bind_inv in Hrun as ([] & w2 & Hset1 & Hrun).
    apply setitem_inv in Hset1 as (d1 & Hd1 & ->).
    assert (d1 = df) as -> by congruence.
    apply bind_inv in Hrun as (msg & w3 & Hmsg & Hrun).
    apply getitem_inv in Hmsg as (-> & d2 & Hd2 & Hmsg).
    cbn [heap with_heap] in Hd2. rewrite lookup_insert_eq in Hd2.
    injection Hd2 as <-.
    apply bind_inv in Hrun as (lengths & w4 & Hlift & Hrun).
    unfold lift in Hlift. injection Hlift as Hlen <-.
    apply bind_inv in Hrun as ([] & w5 & Hset2 & Hrun).
    apply setitem_inv in Hset2 as (d3 & Hd3 & ->).
    cbn [heap with_heap] in Hd3. rewrite lookup_insert_eq in Hd3.
    injection Hd3 as <-.
    injection Hrun as <- <-.
    split; [reflexivity|]. split; [reflexivity|].
    eexists df, _. split; [exact Hdf|].
    split; [cbn [heap with_heap]; apply insert_insert_eq|].
    destruct (two_assignments df "level_score" "message_length"
                (fillna (VNum 0) (Series_map level_mapping lv)) lengths)
      as [Hnames Hrest].
    split; [exact Hnames|]. split; [exact Hrest|].
    repeat split; apply Hrest; discriminate.
  - intros w r c r' w' Hrun. unfold detect_anomalies in Hrun.
    apply bind_inv in Hrun as (X & w1 & HX & Hrun).
    apply getitems_inv in HX as ->.
    apply bind_inv in Hrun as (preds & w2 & Hfit & Hrun).
    apply fit_predict_inv in Hfit as [Hheap Hout].
    apply bind_inv in Hrun as ([] & w3 & Hset1 & Hrun).
    apply setitem_inv in Hset1 as (df & Hdf & ->).
    apply bind_inv in Hrun as (an & w4 & Han & Hrun).
    apply getitem_inv in Han as (-> & d2 & Hd2 & Han).
    cbn [heap with_heap] in Hd2. rewrite lookup_insert_eq in Hd2.
    injection Hd2 as <-.
    apply bind_inv in Hrun as ([] & w5 & Hset2 & Hrun).
    apply setitem_inv in Hset2 as (d3 & Hd3 & ->).
    cbn [heap with_heap] in Hd3. rewrite lookup_insert_eq in Hd3.
    injection Hd3 as <-.
    injection Hrun as <- <-.
    split; [reflexivity|]. split; [exact Hout|].
    rewrite Hheap in Hdf.
    eexists df, _. split; [exact Hdf|].
    split; [cbn [heap with_heap]; rewrite Hheap; apply insert_insert_eq|].
    destruct (two_assignments df "anomaly" "is_anomaly"
                (map VNum preds) (map readable an)) as [Hnames Hrest].
    split; [exact Hnames|]. split; [exact Hrest|].
    repeat split; apply Hrest; discriminate.
Qed.

End InPlace.

Lemma stages_mutate_in_place_witness :
  exists w1 w2,
    @feature_engineering StandIn.sklearn 0
      (StandIn.holding 0
         [ ("timestamp", [VTime 20240115102305%Z]);
           ("level", [VStr "CRITICAL"]);
           ("message", [VStr "Disk write failed"]) ] 0) = (Ok 0, w1)
    /\ @detect_anomalies StandIn.sklearn 0 (1 # 10) w1 = (Ok 0, w2)
    /\ heap w2 !! 0
       = Some [ ("timestamp", [VTime 20240115102305%Z]);
                ("level", [VStr "CRITICAL"]);
                ("message", [VStr "Disk write failed"]);
                ("level_score", [VNum 4]);
                ("message_length", [VNum 17]);
                ("anomaly", [VNum 1]);
                ("is_anomaly", [VStr NORMAL]) ]
    /\ (exists df df',
           heap w1 !! 0 = Some df /\ heap w2 = <[0 := df']> (heap w1)
           /\ Frame.get_col df' "timestamp" = Frame.get_col df "timestamp"
           /\ Frame.get_col df' "level" = Frame.get_col df "level"
           /\ Frame.get_col df' "message" = Frame.get_col df "message").
Proof.
  eexists _, _. split; [vm_compute; reflexivity|].
  split; [vm_compute; reflexivity|].
  split; [vm_compute; reflexivity|].
  match goal with
  | |- exists df df', heap ?w1 !! 0 = _ /\ heap ?w2 = _ /\ _ =>
      destruct (proj2 (@stages_mutate_in_place StandIn.sklearn)
                  w1 0 (1 # 10) 0 w2 ltac:(vm_compute; reflexivity))
        as (_ & _ & df & df' & Hdf & Hheap & _ & _ & Ht & Hl & Hm)
  end.
  exists df, df'. repeat split; assumption.
Defined.

(** ** How the two stages fail *)

Section Failures.

Context `{!Pandas} `{!Sklearn}.

Lemma bind_raise_inv {A B} (m : M A) (k : A -> M B) w e w' :
  bind m k w = (Raise e, w') ->
  m w = (Raise e, w')
  \/ exists a w1, m w = (Ok a, w1) /\ k a w1 = (Raise e, w').
Proof.
  unfold bind. destruct (m w) as [[a|e0] w1]; intros Hk.
  - right. eauto.
  - injection Hk as -> ->. now left.
Qed.

Lemma getitem_raise_inv w r n e w' : getitem r n w = (Raise e, w') -> w' = w.
Proof.
  unfold getitem, bind, load. destruct (heap w !! r) as [d|].
  - destruct (Frame.get_col d n); unfold ret, raise; now intros [= _ <-].
  - now intros [= _ <-].
Qed.

Lemma getitems_raise_inv names w r e w' :
  getitems r names w = (Raise e, w') -> w' = w.
Proof.
  induction names as [|n rest IH]; simpl; [discriminate|].
  intros Hb. apply bind_raise_inv in Hb as [Hb|(s & w1 & Hs & Hb)].
  - now apply getitem_raise_inv in Hb.
  - apply getitem_inv in Hs as [-> _].
    apply bind_raise_inv in Hb as [Hb|(d & w2 & Hd & Hb)]; [auto|discriminate].
Qed.

(** An assignment either goes through or leaves the world as it was. *)
Lemma setitem_cases w r n s d :
  heap w !! r = Some d ->
  (setitem r n s w
   = (Ok tt, with_heap (<[r := Frame.set_col d n s]> (heap w)) w)
   /\ (d = [] \/ length s = Frame.nrows d))
  \/ (setitem r n s w
      = (Raise (ValueError "Length of values does not match length of index"),
         w)
      /\ d <> [] /\ length s <> Frame.nrows d).
Proof.
  intros Hr. unfold setitem, bind, load. rewrite Hr.
  destruct (length d =? 0)%nat eqn:Hd; simpl.
  - left. split; [reflexivity|]. left. apply Nat.eqb_eq in Hd.
    now destruct d.
  - apply Nat.eqb_neq in Hd.
    destruct (length s =? Frame.nrows d)%nat eqn:Hs.
    + left. apply Nat.eqb_eq in Hs. auto.
    + right. apply Nat.eqb_neq in Hs. repeat split; auto.
      intros ->. now apply Hd.
Qed.

Lemma setitem_raise_inv w r n s e w' :
  setitem r n s w = (Raise e, w') -> w' = w.
Proof.
  destruct (heap w !! r) as [d|] eqn:Hr.
  - destruct (setitem_cases w r n s d Hr) as [[-> _]|[-> _]];
      [discriminate|now intros [= _ <-]].
  - unfold setitem, bind, load. rewrite Hr. now intros [= _ <-].
Qed.

Lemma readable_length s : length (map readable s) = length s.
Proof. apply length_map. Qed.

(** [detect_anomalies] is all or nothing: when it raises, whatever the
    cause (no frame at the address, a feature column that is missing, an
    exception of the estimator, predictions of another length than the
    frame), no column has been assigned, no object created and nothing
    printed. *)
Theorem detect_anomalies_all_or_nothing w r c e w' :
  detect_anomalies r c w = (Raise e, w') ->
  heap w' = heap w /\ stdout w' = stdout w /\ files w' = files w.
Proof.
  unfold detect_anomalies. intros Hrun.
  apply bind_raise_inv in Hrun as [Hrun|(X & w1 & HX & Hrun)].
  { apply getitems_raise_inv in Hrun as ->. auto. }
  apply getitems_inv in HX as ->.
  apply bind_raise_inv in Hrun as [Hrun|(preds & w2 & Hfit & Hrun)].
  { unfold fit_predict in Hrun.
    destruct (IsolationForest_fit_predict _ (np_random w) X) as [res g].
    injection Hrun as _ <-. auto. }
  assert (heap w2 = heap w /\ stdout w2 = stdout w /\ files w2 = files w)
    as (Hh & Ho & Hf).
  { unfold fit_predict in Hfit.
    destruct (IsolationForest_fit_predict _ (np_random w) X) as [res g].
    injection Hfit as _ <-. auto. }
  apply bind_raise_inv in Hrun as [Hrun|([] & w3 & Hset & Hrun)].
  { apply setitem_raise_inv in Hrun as ->. auto. }
  exfalso.
  destruct (heap w2 !! r) as [d|] eqn:Hr.
  2:{ unfold setitem, bind, load in Hset. now rewrite Hr in Hset. }
  destruct (setitem_cases w2 r "anomaly" (map VNum preds) d Hr)
    as [[Hok Hlen]|[Hbad _]]; [|congruence].
  rewrite Hok in Hset. injection Hset as <-.
  assert (heap (with_heap (<[r := Frame.set_col d "anomaly" (map VNum preds)]>
                             (heap w2)) w2) !! r
          = Some (Frame.set_col d "anomaly" (map VNum preds))) as Hr3
    by (cbn [heap with_heap]; apply lookup_insert_eq).
  rewrite (bind_ok _ _ _ _ _
             (getitem_ok _ r _ "anomaly" _ Hr3 (FrameFacts.get_set_eq _ _ _)))
    in Hrun.
  apply bind_raise_inv in Hrun as [Hrun|(u & w4 & _ & Hrun)]; [|discriminate].
  destruct (setitem_cases _ r "is_anomaly" (map readable (map VNum preds)) _ Hr3)
    as [[Hok2 _]|[_ [_ Hlen2]]]; [congruence|].
  apply Hlen2. rewrite readable_length.
  symmetry. now apply FrameFacts.nrows_set.
Qed.

Lemma apply_len_ok_inv msg lengths :
  Series_apply py_len msg = Ok lengths ->
  length lengths = length msg
  /\ exists messages, msg = map VStr messages.
Proof.
  revert lengths. induction msg as [|v msg IH]; simpl; intros lengths.
  - intros [= <-]. split; [reflexivity|]. now exists [].
  - destruct v as [s| | |]; simpl; try discriminate.
    destruct (Series_apply py_len msg) as [r|e]; [|discriminate].
    intros [= <-]. destruct (IH r eq_refl) as [Hlen [messages ->]].
    split; [simpl; congruence|]. now exists (s :: messages).
Qed.

Lemma apply_len_not_string msg :
  Exists (fun v => forall s, v <> VStr s) msg ->
  Series_apply py_len msg = Raise (TypeError "object has no len()").
Proof.
  induction msg as [|v msg IH]; intros Hex; [inversion Hex|].
  simpl. destruct v as [s| | |]; simpl; try reflexivity.
  inversion Hex as [? ? Hv|? ? Hrest]; subst.
  - now destruct (Hv s).
  - now rewrite (IH Hrest).
Qed.

(** How [feature_engineering] fails on the frame [df].  With no [level]
    column it raises [KeyError] and leaves the frame as it was.  With a
    [level] column but no [message] column, or with a message that is no
    string, it raises [KeyError], respectively the [TypeError] of [len],
    after [level_score] has been assigned: the frame keeps that column. *)
Theorem feature_engineering_failures w r df
  (Hr : heap w !! r = Some df) :
  (Frame.get_col df "level" = None ->
   feature_engineering r w = (Raise (KeyError "level"), w))
  /\ (forall lv,
         Frame.get_col df "level" = Some lv ->
         length lv = Frame.nrows df ->
         let scored :=
           Frame.set_col df "level_score"
             (fillna (VNum 0) (Series_map level_mapping lv)) in
         (Frame.get_col df "message" = None ->
          feature_engineering r w
          = (Raise (KeyError "message"),
             with_heap (<[r := scored]> (heap w)) w))
         /\ (forall msg,
                Frame.get_col df "message" = Some msg ->
                Exists (fun v => forall s, v <> VStr s) msg ->
                feature_engineering r w
                = (Raise (TypeError "object has no len()"),
                   with_heap (<[r := scored]> (heap w)) w))).
Proof.
  split.
  - intros Hlv. unfold feature_engineering, bind at 1.
    now rewrite (getitem_missing w r df _ Hr Hlv).
  - intros lv Hlv Hlen scored.
    assert (feature_engineering r w
            = bind (getitem r "message")
                (fun message =>
                   bind (lift (Series_apply py_len message))
                     (fun lengths =>
                        bind (setitem r "message_length" lengths)
                          (fun _ => ret r)))
                (with_heap (<[r := scored]> (heap w)) w)) as Hstep.
    { unfold feature_engineering.
      rewrite (bind_ok _ _ _ _ _ (getitem_ok w r df _ _ Hr Hlv)).
      assert (length (fillna (VNum 0) (Series_map level_mapping lv))
              = Frame.nrows df) as Hlen1
        by now rewrite level_score_column_length.
      rewrite (bind_ok _ _ _ _ _
                 (setitem_ok w r df "level_score" _ Hr (or_intror Hlen1))).
      reflexivity. }
    assert (heap (with_heap (<[r := scored]> (heap w)) w) !! r = Some scored)
      as Hr1 by (cbn [heap with_heap]; apply lookup_insert_eq).
    split.
    + intros Hmsg. rewrite Hstep. apply bind_raise.
      apply (getitem_missing _ r scored _ Hr1).
      unfold scored. now rewrite FrameFacts.get_set_ne by discriminate.
    + intros msg Hmsg Hex. rewrite Hstep.
      assert (Frame.get_col scored "message" = Some msg) as Hmsg1
        by (unfold scored; now rewrite FrameFacts.get_set_ne by discriminate).
      rewrite (bind_ok _ _ _ _ _ (getitem_ok _ r scored _ _ Hr1 Hmsg1)).
      apply bind_raise. unfold lift. now rewrite (apply_len_not_string msg Hex).
Qed.

End Failures.

Lemma detect_anomalies_all_or_nothing_witness :
  let w := StandIn.holding 0
             [ ("timestamp", [VTime 20240115102301%Z]);
               ("level", [VStr "INFO"]);
               ("message", [VStr "Service started"]) ] 0 in
  @detect_anomalies StandIn.sklearn 0 (1 # 10) w
  = (Raise (KeyError "level_score"), w)
  /\ heap w = heap w /\ stdout w = stdout w /\ files w = files w.
Proof.
  intros w. split; [reflexivity|].
  exact (@detect_anomalies_all_or_nothing StandIn.sklearn w 0 (1 # 10)
           (KeyError "level_score") w eq_refl).
Defined.

Lemma feature_engineering_failures_witness :
  let df := [ ("timestamp", [VTime 20240115102301%Z; VTime 20240115102302%Z]);
              ("level", [VStr "INFO"; VStr "ERROR"]);
              ("message", [VStr "Service started"; VNull]) ] in
  @feature_engineering StandIn.sklearn 0 (StandIn.holding 0 df 0)
  = (Raise (TypeError "object has no len()"),
     with_heap
       {[ 0 := (df ++ [("level_score", [VNum 1; VNum 3])])%list ]}
       (StandIn.holding 0 df 0)).
Proof.
  intros df.
  rewrite (proj2 (proj2 (@feature_engineering_failures StandIn.sklearn
                           (StandIn.holding 0 df 0) 0 df eq_refl)
                    [VStr "INFO"; VStr "ERROR"] eq_refl eq_refl)
             [VStr "Service started"; VNull] eq_refl
             ltac:(right; left; discriminate)).
  reflexivity.
Defined.

(** ** Running a stage again *)

Section Again.

Context `{!Pandas} `{!Sklearn}.

Lemma set_col_same df n s :
  Frame.get_col df n = Some s -> Frame.set_col df n s = df.
Proof.
  induction df as [|[k c] rest IH]; simpl; [discriminate|].
  destruct (String.eqb k n).
  - now intros [= ->].
  - intros Hs. now rewrite IH.
Qed.

(** What a run of [feature_engineering] that returns went through. *)
Lemma feature_engineering_inv w r r' w' :
  feature_engineering r w = (Ok r', w') ->
  r' = r
  /\ exists df lv msg lengths,
      heap w !! r = Some df
      /\ Frame.get_col df "level" = Some lv
      /\ Frame.get_col df "message" = Some msg
      /\ Series_apply py_len msg = Ok lengths
      /\ length (fillna (VNum 0) (Series_map level_mapping lv)) = Frame.nrows df
      /\ length lengths = Frame.nrows df
      /\ w' = with_heap
                (<[r := Frame.set_col
                          (Frame.set_col df "level_score"
                             (fillna (VNum 0) (Series_map level_mapping lv)))
                          "message_length" lengths]> (heap w)) w.
Proof.
  intros Hrun. unfold feature_engineering in Hrun.
  apply bind_inv in Hrun as (lv & w1 & Hlv & Hrun).
  apply getitem_inv in Hlv as (-> & df & Hdf & Hlv).
  apply bind_inv in Hrun as ([] & w2 & Hset1 & Hrun).
  destruct (setitem_cases w r "level_score"
              (fillna (VNum 0) (Series_map level_mapping lv)) df Hdf)
    as [[Hok Hlen]|[Hbad _]]; [|congruence].
  rewrite Hok in Hset1. injection Hset1 as <-.
  destruct Hlen as [->|Hlen]; [discriminate|].
  apply bind_inv in Hrun as (msg & w3 & Hmsg & Hrun).
  apply getitem_inv in Hmsg as (-> & d2 & Hd2 & Hmsg).
  cbn [heap with_heap] in Hd2. rewrite lookup_insert_eq in Hd2.
  injection Hd2 as <-.
  rewrite FrameFacts.get_set_ne in Hmsg by discriminate.
  apply bind_inv in Hrun as (lengths & w4 & Hlift & Hrun).
  unfold lift in Hlift. injection Hlift as Happly <-.
  apply bind_inv in Hrun as ([] & w5 & Hset2 & Hrun).
  match type of Hset2 with
  | setitem r _ _ ?w0 = _ =>
      destruct (setitem_cases w0 r "message_length" lengths _
                  ltac:(cbn [heap with_heap]; apply lookup_insert_eq))
        as [[Hok2 Hlen2]|[Hbad _]]; [|congruence]
  end.
  rewrite Hok2 in Hset2. injection Hset2 as <-.
  injection Hrun as <- <-.
  split; [reflexivity|].
  exists df, lv, msg, lengths. repeat split; try assumption.
  - destruct Hlen2 as [Hnil|Hlen2].
    + destruct df as [|[k c] rest]; [discriminate|].
      simpl in Hnil. destruct (String.eqb k "level_score"); discriminate.
    + rewrite Hlen2, FrameFacts.nrows_set by now right. exact Hlen.
  - cbn [heap with_heap]. now rewrite insert_insert_eq.
Qed.

(** The run of [feature_engineering] on a frame whose messages have a
    length. *)
Lemma feature_engineering_ok w r df lv msg lengths :
  heap w !! r = Some df ->
  Frame.get_col df "level" = Some lv ->
  Frame.get_col df "message" = Some msg ->
  Series_apply py_len msg = Ok lengths ->
  length (fillna (VNum 0) (Series_map level_mapping lv)) = Frame.nrows df ->
  length lengths = Frame.nrows df ->
  feature_engineering r w
  = (Ok r,
     with_heap
       (<[r := Frame.set_col
                 (Frame.set_col df "level_score"
                    (fillna (VNum 0) (Series_map level_mapping lv)))
                 "message_length" lengths]> (heap w)) w).
Proof.
  intros Hr Hlv Hmsg Happly Hlen1 Hlen2. unfold feature_engineering.
  rewrite (bind_ok _ _ _ _ _ (getitem_ok w r df _ _ Hr Hlv)).
  rewrite (bind_ok _ _ _ _ _
             (setitem_ok w r df "level_score" _ Hr (or_intror Hlen1))).
  set (scored := Frame.set_col df "level_score" _).
  set (w1 := with_heap _ w).
  assert (heap w1 !! r = Some scored) as Hr1
    by (unfold w1; cbn [heap with_heap]; apply lookup_insert_eq).
  assert (Frame.get_col scored "message" = Some msg) as Hmsg1
    by (unfold scored; now rewrite FrameFacts.get_set_ne by discriminate).
  rewrite (bind_ok _ _ _ _ _ (getitem_ok w1 r scored _ _ Hr1 Hmsg1)).
  assert (lift (Series_apply py_len msg) w1 = (Ok lengths, w1)) as Hlift
    by (unfold lift; now rewrite Happly).
  rewrite (bind_ok _ _ _ _ _ Hlift).
  assert (length lengths = Frame.nrows scored) as Hlen3.
  { unfold scored. rewrite FrameFacts.nrows_set by now right. congruence. }
  rewrite (bind_ok _ _ _ _ _
             (setitem_ok w1 r scored "message_length" _ Hr1 (or_intror Hlen3))).
  unfold ret, w1. cbn [heap with_heap]. now rewrite insert_insert_eq.
Qed.

(** A second run of [feature_engineering] on the frame a first run
    returned returns it again and changes nothing: the two columns are
    computed from [level] and [message], which the first run left as they
    were, and are assigned where they already stand. *)
Theorem feature_engineering_again w r r1 w1 :
  feature_engineering r w = (Ok r1, w1) ->
  feature_engineering r1 w1 = (Ok r1, w1).
Proof.
  intros Hrun.
  apply feature_engineering_inv in Hrun
    as (-> & df & lv & msg & lengths & Hdf & Hlv & Hmsg & Happly & Hlen1
        & Hlen2 & ->).
  set (L := fillna (VNum 0) (Series_map level_mapping lv)) in *.
  set (df2 := Frame.set_col (Frame.set_col df "level_score" L)
                "message_length" lengths).
  set (w1 := with_heap (<[r := df2]> (heap w)) w).
  assert (heap w1 !! r = Some df2) as Hr1
    by (unfold w1; cbn [heap with_heap]; apply lookup_insert_eq).
  assert (Frame.nrows df2 = Frame.nrows df) as Hrows.
  { unfold df2. rewrite FrameFacts.nrows_set; [exact Hlen2|].
    right. rewrite FrameFacts.nrows_set by now right. congruence. }
  assert (Frame.get_col df2 "level" = Some lv) as Hlv2.
  { unfold df2. now rewrite !FrameFacts.get_set_ne by discriminate. }
  assert (Frame.get_col df2 "message" = Some msg) as Hmsg2.
  { unfold df2. now rewrite !FrameFacts.get_set_ne by discriminate. }
  assert (Frame.get_col df2 "level_score" = Some L) as HL2.
  { unfold df2. rewrite FrameFacts.get_set_ne by discriminate.
    apply FrameFacts.get_set_eq. }
  assert (Frame.get_col df2 "message_length" = Some lengths) as Hml2
    by apply FrameFacts.get_set_eq.
  rewrite (feature_engineering_ok w1 r df2 lv msg lengths Hr1 Hlv2 Hmsg2
             Happly ltac:(fold L; congruence) ltac:(congruence)).
  fold L. rewrite (set_col_same df2 "level_score" L HL2).
  rewrite (set_col_same df2 "message_length" lengths Hml2).
  rewrite (insert_id (heap w1) r df2 Hr1). reflexivity.
Qed.

End Again.

Lemma feature_engineering_again_witness :
  exists w1,
    @feature_engineering StandIn.sklearn 0
      (StandIn.holding 0
         [ ("timestamp", [VTime 20240115102305%Z]);
           ("level", [VStr "CRITICAL"]);
           ("message", [VStr "Disk write failed"]) ] 0) = (Ok 0, w1)
    /\ @feature_engineering StandIn.sklearn 0 w1 = (Ok 0, w1)
    /\ heap w1 !! 0
       = Some [ ("timestamp", [VTime 20240115102305%Z]);
                ("level", [VStr "CRITICAL"]);
                ("message", [VStr "Disk write failed"]);
                ("level_score", [VNum 4]);
                ("message_length", [VNum 17]) ].
Proof.
  eexists. split; [vm_compute; reflexivity|].
  split; [|vm_compute; reflexivity].
  match goal with
  | |- feature_engineering 0 ?w1 = _ =>
      exact (@feature_engineering_again StandIn.sklearn
               (StandIn.holding 0
                  [ ("timestamp", [VTime 20240115102305%Z]);
                    ("level", [VStr "CRITICAL"]);
                    ("message", [VStr "Disk write failed"]) ] 0)
               0 0 w1 ltac:(vm_compute; reflexivity))
  end.
Defined.

(** ** The parser, line by line *)

Section Lines.

Context `{!Pandas} `{!Sklearn}.

Lemma row_of_record log :
  row_of log = if has_four_fields log then [record_of log] else [].
Proof.
  unfold row_of, parse_step, has_four_fields, record_of, timestamp_str, field.
  now destruct (length (PyStr.split 3 (PyStr.strip log)) <? 4)%nat.
Qed.

Lemma rows_of_records logs :
  rows_of logs = map record_of (List.filter has_four_fields logs).
Proof.
  induction logs as [|log logs IH]; [reflexivity|].
  rewrite rows_of_cons, row_of_record, IH. simpl.
  now destruct (has_four_fields log).
Qed.

Lemma select_le {A} (mask : list bool) (l : list A) :
  length (Frame.select mask l) <= length l.
Proof.
  revert l. induction mask as [|b mask IH]; intros [|x l]; simpl; try lia.
  specialize (IH l). destruct b; simpl; lia.
Qed.

Lemma select_in {A} (mask : list bool) (l : list A) x :
  In x (Frame.select mask l) -> In x l.
Proof.
  revert l. induction mask as [|b mask IH]; intros [|y l]; simpl; try tauto.
  destruct b; simpl; intros Hin; [destruct Hin|]; auto.
Qed.

Lemma filter_le {A} (f : A -> bool) (l : list A) :
  length (List.filter f l) <= length l.
Proof. induction l as [|x l IH]; simpl; [lia|]. destruct (f x); simpl; lia. Qed.

Lemma has_four_fields_four log :
  has_four_fields log = true -> length (PyStr.split 3 (PyStr.strip log)) = 4.
Proof.
  unfold has_four_fields. intros Hf. apply negb_true_iff, Nat.ltb_ge in Hf.
  pose proof (PyStrFacts.split_length_le 3 (PyStr.strip log)). lia.
Qed.

Lemma parsed_frame_wf logs : length_preserving -> Frame.wf (parsed_frame logs).
Proof.
  intros Hlen. unfold Frame.wf, parsed_frame. cbn [Frame.nrows].
  repeat constructor.
  - rewrite length_map. now apply kept_levels_length.
  - rewrite length_map, kept_messages_length by assumption.
    now apply kept_levels_length.
Qed.

(** The loop of [parse_logs] handles each line by itself: the rows it
    collects are those of the lines with four fields, in their order, so
    that the rows of two lists of lines put end to end are the rows of the
    first followed by the rows of the second.  The frame returned has the
    columns [timestamp], [level] and [message], all of one length, and no
    more rows than there are lines with four fields; a level in it is a
    string without a space, and comes from a line of the input. *)
Theorem parse_logs_line_by_line (Hlen : length_preserving) logs w :
  rows_of logs = map record_of (List.filter has_four_fields logs)
  /\ (forall more, rows_of (logs ++ more) = (rows_of logs ++ rows_of more)%list)
  /\ exists df,
      returned_frame (parse_logs logs w) = Some df
      /\ Frame.col_names df = ["timestamp"; "level"; "message"]
      /\ Frame.wf df
      /\ Frame.nrows df <= length (List.filter has_four_fields logs)
      /\ length (List.filter has_four_fields logs) <= length logs
      /\ exists levels,
          Frame.get_col df "level" = Some (map VStr levels)
          /\ Forall (fun level =>
                       PyStr.count_space level = 0
                       /\ exists log, In log logs /\ has_four_fields log = true
                                      /\ level = field 2 log) levels.
Proof.
  split; [apply rows_of_records|].
  split.
  { intros more. rewrite !rows_of_records, List.filter_app. apply map_app. }
  exists (parsed_frame logs).
  split; [rewrite parse_logs_frame by assumption; now rewrite parsed_frame_eq|].
  split; [reflexivity|].
  split; [now apply parsed_frame_wf|].
  split.
  { cbn [Frame.nrows parsed_frame].
    etransitivity; [apply select_le|].
    unfold coerced. rewrite Hlen, column_length, rows_of_records.
    now rewrite length_map. }
  split; [apply filter_le|].
  exists (kept_levels logs). split; [reflexivity|].
  apply List.Forall_forall. intros level Hin.
  unfold kept_levels in Hin. apply in_map_iff in Hin as (v & <- & Hin).
  apply select_in in Hin. rewrite rows_of_records in Hin.
  unfold column in Hin. rewrite map_map in Hin.
  apply in_map_iff in Hin as (log & <- & Hin).
  apply filter_In in Hin as [Hin Hfour]. cbn [record_of nth text].
  split.
  - unfold field. apply PyStrFacts.split_fields_no_space.
    rewrite (has_four_fields_four log Hfour). lia.
  - eauto.
Qed.

(** Blank characters at either end of a line count for nothing: the loop
    treats the line as it treats the line without them. *)
Theorem parse_step_ignores_margins data log before after :
  PyStr.all_space before -> PyStr.all_space after ->
  parse_step data (before ++ log ++ after) = parse_step data log.
Proof.
  intros Hb Ha. unfold parse_step.
  rewrite PyStrFacts.strip_leading by assumption.
  now rewrite PyStrFacts.strip_trailing by assumption.
Qed.

End Lines.

Lemma parse_logs_line_by_line_witness :
  @length_preserving StandIn.pandas
  /\ rows_of StandIn.sample_log
     = map record_of (List.filter has_four_fields StandIn.sample_log)
  /\ length (List.filter has_four_fields StandIn.sample_log) = 7
  /\ exists df,
      returned_frame
        (@parse_logs StandIn.pandas StandIn.sklearn StandIn.sample_log
           StandIn.start) = Some df
      /\ Frame.nrows df = 6.
Proof.
  split; [exact standin_length_preserving|].
  destruct (@parse_logs_line_by_line StandIn.pandas StandIn.sklearn
              standin_length_preserving StandIn.sample_log StandIn.start)
    as (Hrows & _ & _).
  split; [exact Hrows|]. split; [reflexivity|].
  eexists. split; vm_compute; reflexivity.
Defined.

Lemma parse_step_ignores_margins_witness :
  parse_step [] ("  " ++ "2024-01-15 10:23:01 INFO Service started" ++ PyStr.nl)
  = [[VStr "2024-01-15 10:23:01"; VStr "INFO"; VStr "Service started"]].
Proof.
  rewrite (parse_step_ignores_margins []
             "2024-01-15 10:23:01 INFO Service started" "  " PyStr.nl).
  - reflexivity.
  - intros c [<-|[<-|[]]]; reflexivity.
  - intros c [<-|[]]; reflexivity.
Defined.

(** ** The whole run *)

Section Main.

Context `{!Pandas} `{!Sklearn}.

Lemma select_nil {A} (mask : list bool) : Frame.select mask (@nil A) = [].
Proof. now destruct mask. Qed.

Lemma analysed_frame_cols logs preds :
  Frame.col_names (analysed_frame logs preds)
  = ["timestamp"; "level"; "message"; "level_score"; "message_length";
     "anomaly"; "is_anomaly"].
Proof. reflexivity. Qed.

Lemma is_anomaly_mask preds :
  map (fun x => value_eqb x (VStr ANOMALY)) (map readable (map VNum preds))
  = anomaly_mask preds.
Proof.
  unfold anomaly_mask. rewrite !map_map. apply map_ext. intros p.
  rewrite readable_num. now destruct (Z.eqb p (-1)).
Qed.

Lemma select_mask_length {A} preds (l : list A) :
  length preds = length l ->
  length (Frame.select (anomaly_mask preds) l)
  = length (List.filter (fun p => Z.eqb p (-1)) preds).
Proof.
  unfold anomaly_mask. revert l.
  induction preds as [|p preds IH]; intros [|x l]; simpl; try discriminate;
    [reflexivity|].
  intros [= Hlen]. destruct (Z.eqb p (-1)); simpl; now rewrite IH.
Qed.

Lemma filter_nil_existsb {A} (f : A -> bool) l :
  (length (List.filter f l) =? 0)%nat = negb (existsb f l).
Proof. induction l as [|x l IH]; simpl; [reflexivity|]. now destruct (f x). Qed.

Lemma reported_frame_empty logs preds :
  length_preserving ->
  length preds = length (kept_levels logs) ->
  Frame.empty (reported_frame logs preds)
  = negb (existsb (fun p => Z.eqb p (-1)) preds).
Proof.
  intros Hlen Hn. unfold Frame.empty, reported_frame.
  cbn [analysed_frame parsed_frame app Frame.select_rows map length Nat.eqb
         orb Frame.nrows].
  rewrite select_mask_length by (rewrite Hn; now apply kept_levels_length).
  apply filter_nil_existsb.
Qed.

Lemma filter_eq_ok w r df n v s :
  heap w !! r = Some df ->
  Frame.get_col df n = Some s ->
  filter_eq r n v w
  = (Ok (fresh (dom (heap w))),
     with_heap
       (<[fresh (dom (heap w))
          := Frame.select_rows (map (fun x => value_eqb x v) s) df]> (heap w))
       w).
Proof.
  intros Hr Hs. unfold filter_eq.
  rewrite (bind_ok _ _ _ _ _ (getitem_ok w r df n s Hr Hs)).
  now rewrite (bind_ok _ _ _ _ _ (load_ok w r df Hr)).
Qed.

Lemma df_empty_ok w r df :
  heap w !! r = Some df -> df_empty r w = (Ok (Frame.empty df), w).
Proof.
  intros Hr. unfold df_empty. now rewrite (bind_ok _ _ _ _ _ (load_ok w r df Hr)).
Qed.

(** The world in which [main] hands the frame to [feature_engineering]. *)
Lemma main_parsed path w logs :
  length_preserving ->
  files w path = ReadLines logs ->
  main path w
  = bind
      (if Frame.empty (parsed_frame logs)
       then bind (print [PStr "No valid log entries found."])
              (fun _ => sys_exit 0)
       else ret tt)
      (fun _ =>
         bind (feature_engineering (parsed_at logs (heap w)))
           (fun df =>
              bind (detect_anomalies df (1 # 10))
                (fun df =>
                   bind (filter_eq df "is_anomaly" (VStr ANOMALY))
                     (fun anomalies =>
                        bind (df_empty anomalies)
                          (fun e =>
                             if e : bool
                             then print [PStr (PyStr.nl ++ "üîç No anomalies detected.")]
                             else
                               bind (load anomalies)
                                 (fun a =>
                                    print [PStr (PyStr.nl ++ "üîç **Detected Anomalies:**" ++ PyStr.nl);
                                           PFrame a]))))))
      (with_heap (<[parsed_at logs (heap w) := parsed_frame logs]>
                    (heap_after_parse logs (heap w))) w).
Proof.
  intros Hlen Hf. unfold main.
  assert (read_logs path w = (Ok logs, w)) as Hread
    by (unfold read_logs; now rewrite Hf).
  rewrite (bind_ok _ _ _ _ _ Hread).
  rewrite (bind_ok _ _ _ _ _ (parse_logs_parsed logs w Hlen)).
  unfold df_empty at 1. unfold bind at 1. unfold bind at 1.
  rewrite (load_ok _ _ (parsed_frame logs))
    by (cbn [heap with_heap]; apply lookup_insert_eq).
  reflexivity.
Qed.

Lemma parsed_frame_empty logs :
  length_preserving ->
  Frame.empty (parsed_frame logs) = (length (kept_levels logs) =? 0)%nat.
Proof.
  intros Hlen. unfold Frame.empty. cbn [parsed_frame length Nat.eqb orb Frame.nrows].
  now rewrite <- kept_levels_length.
Qed.

(** A file that cannot be opened or read ends the run at once: one line
    that names the file is printed, the exit status is 1, and no frame has
    been created. *)
Theorem main_input_unavailable path w :
  (files w path = NotFound ->
   main path w
   = (Raise (SystemExit 1),
      with_stdout
        (stdout w ++ [[PStr ("Error: The file '" ++ path ++ "' was not found.")]])
        w))
  /\ (forall e,
         files w path = ReadError e ->
         main path w
         = (Raise (SystemExit 1),
            with_stdout
              (stdout w
               ++ [[PStr ("Error reading file '" ++ path ++ "': " ++ e)]]) w))
  /\ (files w path = NotFound \/ (exists e, files w path = ReadError e) ->
      exit_status (fst (main path w)) = 1%Z
      /\ heap (snd (main path w)) = heap w).
Proof.
  assert (files w path = NotFound ->
          main path w
          = (Raise (SystemExit 1),
             with_stdout
               (stdout w
                ++ [[PStr ("Error: The file '" ++ path ++ "' was not found.")]])
               w)) as Hnf.
  { intros Hf. unfold main, bind at 1, read_logs. now rewrite Hf. }
  assert (forall e,
             files w path = ReadError e ->
             main path w
             = (Raise (SystemExit 1),
                with_stdout
                  (stdout w
                   ++ [[PStr ("Error reading file '" ++ path ++ "': " ++ e)]])
                  w)) as Hre.
  { intros e Hf. unfold main, bind at 1, read_logs. now rewrite Hf. }
  split; [exact Hnf|]. split; [exact Hre|].
  intros [Hf|[e Hf]]; [rewrite (Hnf Hf)|rewrite (Hre e Hf)]; now split.
Qed.

(** When no line of the file gives a record, because none has four fields
    or because no timestamp can be read, the run prints the one line
    [No valid log entries found.] and ends with the exit status 0; the
    estimator has not been called. *)
Theorem main_no_valid_entries (Hlen : length_preserving) path w logs :
  files w path = ReadLines logs ->
  List.filter has_four_fields logs = []
  \/ Forall (fun v => isna v = true) (coerced logs) ->
  exists w',
    main path w = (Raise (SystemExit 0), w')
    /\ exit_status (fst (main path w)) = 0%Z
    /\ stdout w' = (stdout w ++ [[PStr "No valid log entries found."]])%list
    /\ np_random w' = np_random w.
Proof.
  intros Hf Hnone.
  assert (kept_levels logs = []) as Hkept.
  { unfold kept_levels. destruct Hnone as [Hnone|Hnone].
    - rewrite rows_of_records, Hnone. unfold column. simpl map at 2.
      now rewrite select_nil.
    - rewrite FrameFacts.select_all_false; [reflexivity|].
      unfold survivors. apply List.Forall_forall. intros b Hb.
      apply in_map_iff in Hb as (v & <- & Hv).
      rewrite List.Forall_forall in Hnone. now rewrite (Hnone v Hv). }
  rewrite (main_parsed path w logs Hlen Hf).
  rewrite parsed_frame_empty, Hkept by assumption.
  eexists. split; [reflexivity|]. repeat split.
Qed.

(** When the file gives at least one record and the estimator answers with
    one prediction per record, the run reaches its end having called
    [print] once: with the line [No anomalies detected.] when no
    prediction is -1, and otherwise with the heading and the frame of the
    rows whose prediction is -1, in their order, under the seven columns of
    the analysed frame. *)
Theorem main_reports (Hlen : length_preserving) path w logs preds g' :
  files w path = ReadLines logs ->
  kept_levels logs <> [] ->
  IsolationForest_fit_predict (forest (1 # 10)) (np_random w) (features logs)
  = (Ok preds, g') ->
  length preds = length (kept_levels logs) ->
  exists w',
    main path w = (Ok tt, w')
    /\ exit_status (fst (main path w)) = 0%Z
    /\ stdout w' = (stdout w ++ [report logs preds])%list
    /\ Frame.col_names (reported_frame logs preds)
       = ["timestamp"; "level"; "message"; "level_score"; "message_length";
          "anomaly"; "is_anomaly"]
    /\ Frame.get_col (reported_frame logs preds) "anomaly"
       = Some (map VNum (List.filter (fun p => Z.eqb p (-1)) preds))
    /\ Frame.nrows (reported_frame logs preds)
       = length (List.filter (fun p => Z.eqb p (-1)) preds).
Proof.
  intros Hf Hsome Hfit Hn.
  assert (Frame.get_col (reported_frame logs preds) "anomaly"
          = Some (map VNum (List.filter (fun p => Z.eqb p (-1)) preds))) as Han.
  { unfold reported_frame. rewrite FrameFacts.get_select_rows.
    change (Frame.get_col (analysed_frame logs preds) "anomaly")
      with (Some (map VNum preds)).
    cbn [option_map]. f_equal. unfold anomaly_mask. clear.
    induction preds as [|p preds IH]; [reflexivity|].
    simpl. destruct (Z.eqb p (-1)); simpl; now rewrite IH. }
  assert (Frame.nrows (reported_frame logs preds)
          = length (List.filter (fun p => Z.eqb p (-1)) preds)) as Hrows.
  { unfold reported_frame.
    cbn [analysed_frame parsed_frame app Frame.select_rows map Frame.nrows].
    apply select_mask_length. rewrite Hn. now apply kept_levels_length. }
  assert (Frame.col_names (reported_frame logs preds)
          = ["timestamp"; "level"; "message"; "level_score"; "message_length";
             "anomaly"; "is_anomaly"]) as Hcols
    by (unfold reported_frame; now rewrite FrameFacts.col_names_select_rows).
  assert (exists w', main path w = (Ok tt, w')
                     /\ stdout w' = (stdout w ++ [report logs preds])%list)
    as (w' & Hmain & Hout).
  { pose proof (analyse_run logs (1 # 10) w preds g' Hlen Hfit Hn) as Hrun.
    cbv zeta in Hrun. unfold analyse in Hrun.
    rewrite (bind_ok _ _ _ _ _ (parse_logs_parsed logs w Hlen)) in Hrun.
    rewrite (main_parsed path w logs Hlen Hf).
    rewrite parsed_frame_empty by assumption.
    destruct (length (kept_levels logs) =? 0)%nat eqn:Hz.
    { apply Nat.eqb_eq in Hz.
      destruct (kept_levels logs); [congruence|discriminate]. }
    unfold bind at 1. unfold ret at 1.
    apply bind_inv in Hrun as (r1 & w2 & Hfe & Hdet).
    rewrite (bind_ok _ _ _ _ _ Hfe), (bind_ok _ _ _ _ _ Hdet).
    set (r := parsed_at logs (heap w)).
    set (w3 := {| heap := <[r := analysed_frame logs preds]>
                            (heap_after_parse logs (heap w));
                  stdout := stdout w; np_random := g'; files := files w |}).
    assert (heap w3 !! r = Some (analysed_frame logs preds)) as Hr3
      by (unfold w3; cbn [heap]; apply lookup_insert_eq).
    assert (Frame.get_col (analysed_frame logs preds) "is_anomaly"
            = Some (map readable (map VNum preds))) as Hlabels by reflexivity.
    rewrite (bind_ok _ _ _ _ _
               (filter_eq_ok w3 r _ "is_anomaly" (VStr ANOMALY) _ Hr3 Hlabels)).
    rewrite is_anomaly_mask. fold (reported_frame logs preds).
    set (a := fresh (dom (heap w3))).
    set (w4 := with_heap (<[a := reported_frame logs preds]> (heap w3)) w3).
    assert (heap w4 !! a = Some (reported_frame logs preds)) as Ha
      by (unfold w4; cbn [heap with_heap]; apply lookup_insert_eq).
    rewrite (bind_ok _ _ _ _ _ (df_empty_ok w4 a _ Ha)).
    rewrite reported_frame_empty by assumption.
    unfold report.
    destruct (existsb (fun p => Z.eqb p (-1)) preds); cbn [negb].
    - rewrite (bind_ok _ _ _ _ _ (load_ok w4 a _ Ha)).
      eexists. split; reflexivity.
    - eexists. split; reflexivity. }
  exists w'. rewrite Hmain. repeat split; assumption.
Qed.

(** When the estimator raises, the run ends with that exception and has
    printed nothing. *)
Theorem main_estimator_raises (Hlen : length_preserving) path w logs e g' :
  files w path = ReadLines logs ->
  kept_levels logs <> [] ->
  IsolationForest_fit_predict (forest (1 # 10)) (np_random w) (features logs)
  = (Raise e, g') ->
  exists w', main path w = (Raise e, w') /\ stdout w' = stdout w.
Proof.
  intros Hf Hsome Hfit.
  pose proof (features_run logs w Hlen) as Hfe. cbv zeta in Hfe.
  rewrite (bind_ok _ _ _ _ _ (parse_logs_parsed logs w Hlen)) in Hfe.
  rewrite (main_parsed path w logs Hlen Hf).
  rewrite parsed_frame_empty by assumption.
  destruct (length (kept_levels logs) =? 0)%nat eqn:Hz.
  { apply Nat.eqb_eq in Hz. destruct (kept_levels logs); [congruence|discriminate]. }
  unfold bind at 1. unfold ret at 1.
  rewrite (bind_ok _ _ _ _ _ Hfe).
  eexists. split.
  - apply bind_raise.
    eapply (detect_anomalies_library_raises _ _ _ (1 # 10)
              (level_scores (kept_levels logs))
              (message_lengths (kept_messages logs)) e g').
    + cbn [heap with_heap]. apply lookup_insert_eq.
    + reflexivity.
    + reflexivity.
    + exact Hfit.
  - reflexivity.
Qed.

End Main.

Lemma main_input_unavailable_witness :
  @main StandIn.pandas StandIn.sklearn "missing.txt" StandIn.start
  = (Raise (SystemExit 1),
     with_stdout [[PStr "Error: The file 'missing.txt' was not found."]]
       StandIn.start).
Proof.
  exact (proj1 (@main_input_unavailable StandIn.pandas StandIn.sklearn
                  "missing.txt" StandIn.start) eq_refl).
Defined.

Lemma main_no_valid_entries_witness :
  exists w',
    @main StandIn.pandas StandIn.sklearn "noise.txt"
      (StandIn.world_with "noise.txt" StandIn.noise_log 0)
    = (Raise (SystemExit 0), w')
    /\ stdout w' = [[PStr "No valid log entries found."]].
Proof.
  destruct (@main_no_valid_entries StandIn.pandas StandIn.sklearn
              standin_length_preserving "noise.txt"
              (StandIn.world_with "noise.txt" StandIn.noise_log 0)
              StandIn.noise_log eq_refl
              ltac:(right; vm_compute; repeat constructor))
    as (w' & Hmain & _ & Hout & _).
  exists w'. split; assumption.
Defined.

Lemma main_reports_witness :
  exists w',
    @main StandIn.pandas StandIn.sklearn "system_logs.txt" StandIn.start
    = (Ok tt, w')
    /\ stdout w'
       = [@report StandIn.pandas StandIn.sample_log [1; 1; 1; 1; -1; 1]%Z]
    /\ Frame.get_col
         (@reported_frame StandIn.pandas StandIn.sample_log
            [1; 1; 1; 1; -1; 1]%Z) "level"
       = Some [VStr "CRITICAL"].
Proof.
  destruct (@main_reports StandIn.pandas StandIn.sklearn
              standin_length_preserving "system_logs.txt" StandIn.start
              StandIn.sample_log [1; 1; 1; 1; -1; 1]%Z 0 eq_refl
              ltac:(vm_compute; discriminate)
              ltac:(vm_compute; reflexivity) eq_refl)
    as (w' & Hmain & _ & Hout & _).
  exists w'. split; [exact Hmain|]. split; [exact Hout|].
  vm_compute. reflexivity.
Defined.

Lemma main_estimator_raises_witness :
  exists w',
    @main StandIn.pandas StandIn.refusing "system_logs.txt"
      StandIn.start_refusing
    = (Raise (LibraryError "the estimator refused"), w')
    /\ stdout w' = [].
Proof.
  exact (@main_estimator_raises StandIn.pandas StandIn.refusing
           standin_length_preserving "system_logs.txt" StandIn.start_refusing
           StandIn.sample_log (LibraryError "the estimator refused") 0 eq_refl
           ltac:(vm_compute; discriminate) eq_refl).
Defined.

(** ** From the lines to the features *)

Section Extraction.

Context `{!Pandas} `{!Sklearn}.

Lemma expected_level_score_range level :
  (0 <= expected_level_score level <= 4)%Z.
Proof.
  unfold expected_level_score.
  repeat match goal with
         | |- context [String.eqb ?a ?b] => destruct (String.eqb a b)
         end; lia.
Qed.

(** Whatever the lines, [parse_logs] followed by [feature_engineering]
    raises nothing and prints nothing: every message that the parser keeps
    is a string, so that [len] applies.  The frame returned has one
    [level_score] and one [message_length] for each row, a whole number
    from 0 to 4 and a whole number that is not negative. *)
Theorem extraction_never_raises (Hlen : length_preserving) logs w :
  exists r w' df ls ml,
    bind (parse_logs logs) feature_engineering w = (Ok r, w')
    /\ stdout w' = stdout w
    /\ heap w' !! r = Some df
    /\ Frame.wf df
    /\ Frame.col_names df
       = ["timestamp"; "level"; "message"; "level_score"; "message_length"]
    /\ Frame.get_col df "level_score" = Some ls
    /\ Frame.get_col df "message_length" = Some ml
    /\ length ls = Frame.nrows df
    /\ length ml = Frame.nrows df
    /\ Forall (fun v => exists z, v = VNum z /\ (0 <= z <= 4)%Z) ls
    /\ Forall (fun v => exists z, v = VNum z /\ (0 <= z)%Z) ml.
Proof.
  pose proof (features_run logs w Hlen) as Hrun. cbv zeta in Hrun.
  pose proof (kept_levels_length logs Hlen) as Hl.
  pose proof (kept_messages_length logs Hlen) as Hm.
  eexists _, _, _, (level_scores (kept_levels logs)),
    (message_lengths (kept_messages logs)).
  split; [exact Hrun|]. split; [reflexivity|].
  split; [cbn [heap with_heap]; apply lookup_insert_eq|].
  split.
  { unfold Frame.wf, parsed_frame, level_scores, message_lengths.
    cbn [app Frame.nrows]. repeat constructor; rewrite ?length_map; congruence. }
  split; [reflexivity|]. split; [reflexivity|]. split; [reflexivity|].
  cbn [parsed_frame app Frame.nrows].
  split; [unfold level_scores; rewrite length_map; congruence|].
  split; [unfold message_lengths; rewrite length_map; congruence|].
  split.
  - unfold level_scores. apply List.Forall_forall. intros v Hin.
    apply in_map_iff in Hin as (l & <- & _).
    eexists. split; [reflexivity|]. apply expected_level_score_range.
  - unfold message_lengths. apply List.Forall_forall. intros v Hin.
    apply in_map_iff in Hin as (m & <- & _).
    eexists. split; [reflexivity|]. lia.
Qed.

End Extraction.

Lemma extraction_never_raises_witness :
  @length_preserving StandIn.pandas
  /\ exists r w' df,
      bind (@parse_logs StandIn.pandas StandIn.sklearn StandIn.sample_log)
        feature_engineering StandIn.start = (Ok r, w')
      /\ heap w' !! r = Some df
      /\ Frame.get_col df "level_score"
         = Some [VNum 1; VNum 1; VNum 1; VNum 1; VNum 4; VNum 1].
Proof.
  split; [exact standin_length_preserving|].
  destruct (@extraction_never_raises StandIn.pandas StandIn.sklearn
              standin_length_preserving StandIn.sample_log StandIn.start)
    as (r & w' & df & ls & ml & Hrun & _).
  eexists _, _, _. split; [vm_compute; reflexivity|].
  split; vm_compute; reflexivity.
Defined.

(** ** Detecting again *)

Section DetectAgain.

Context `{!Pandas} `{!Sklearn}.

(** What a run of [detect_anomalies] that returns went through. *)
Lemma detect_anomalies_inv w r c r' w' :
  detect_anomalies r c w = (Ok r', w') ->
  r' = r
  /\ exists df ls ml preds,
      heap w !! r = Some df
      /\ Frame.get_col df "level_score" = Some ls
      /\ Frame.get_col df "message_length" = Some ml
      /\ fst (IsolationForest_fit_predict (forest c) (np_random w)
                [("level_score", ls); ("message_length", ml)]) = Ok preds
      /\ length preds = Frame.nrows df
      /\ heap w' = <[r := Frame.set_col
                             (Frame.set_col df "anomaly" (map VNum preds))
                             "is_anomaly" (map readable (map VNum preds))]>
                     (heap w)
      /\ stdout w' = stdout w.
Proof.
  intros Hrun.
  destruct (heap w !! r) as [df|] eqn:Hr.
  2:{ unfold detect_anomalies in Hrun. simpl getitems in Hrun.
      unfold bind at 1, bind at 1, getitem, bind, load in Hrun.
      now rewrite Hr in Hrun. }
  destruct (Frame.get_col df "level_score") as [ls|] eqn:Hls.
  2:{ now rewrite (detect_anomalies_no_score w r df c Hr Hls) in Hrun. }
  destruct (Frame.get_col df "message_length") as [ml|] eqn:Hml.
  2:{ now rewrite (detect_anomalies_no_length w r df c ls Hr Hls Hml) in Hrun. }
  destruct (IsolationForest_fit_predict (forest c) (np_random w)
              [("level_score", ls); ("message_length", ml)])
    as [[preds|e] g'] eqn:Hfit.
  2:{ now rewrite (detect_anomalies_library_raises w r df c ls ml e g'
                     Hr Hls Hml Hfit) in Hrun. }
  destruct (Nat.eq_dec (length preds) (Frame.nrows df)) as [Hn|Hn].
  2:{ now rewrite (detect_anomalies_bad_length w r df c ls ml preds g'
                     Hr Hls Hml Hfit Hn) in Hrun. }
  rewrite (detect_anomalies_run w r df c ls ml preds g' Hr Hls Hml Hfit Hn)
    in Hrun.
  injection Hrun as <- <-. split; [reflexivity|].
  exists df, ls, ml, preds. rewrite Hfit. repeat split; assumption.
Qed.

(** With an estimator that answers a seeded call by its arguments alone, a
    second run of [detect_anomalies] on the frame a first run returned
    returns it again with the same predictions and labels: the heap is
    left as the first run left it. *)
Theorem detect_anomalies_again
  (Hseeded : forall model g1 g2 X,
      random_state model <> None ->
      fst (IsolationForest_fit_predict model g1 X)
      = fst (IsolationForest_fit_predict model g2 X))
  w r c r1 w1 :
  detect_anomalies r c w = (Ok r1, w1) ->
  exists w2,
    detect_anomalies r1 c w1 = (Ok r1, w2)
    /\ heap w2 = heap w1 /\ stdout w2 = stdout w1.
Proof.
  intros Hrun.
  apply detect_anomalies_inv in Hrun
    as (-> & df & ls & ml & preds & Hr & Hls & Hml & Hfit & Hn & Hheap & Hout).
  set (A := map VNum preds) in *.
  set (B := map readable A) in *.
  set (df2 := Frame.set_col (Frame.set_col df "anomaly" A) "is_anomaly" B) in *.
  assert (heap w1 !! r = Some df2) as Hr1
    by (rewrite Hheap; apply lookup_insert_eq).
  assert (Frame.get_col df2 "level_score" = Some ls) as Hls2
    by (unfold df2; now rewrite !FrameFacts.get_set_ne by discriminate).
  assert (Frame.get_col df2 "message_length" = Some ml) as Hml2
    by (unfold df2; now rewrite !FrameFacts.get_set_ne by discriminate).
  assert (Frame.get_col df2 "anomaly" = Some A) as HA.
  { unfold df2. rewrite FrameFacts.get_set_ne by discriminate.
    apply FrameFacts.get_set_eq. }
  assert (Frame.get_col df2 "is_anomaly" = Some B) as HB
    by apply FrameFacts.get_set_eq.
  assert (df <> []) as Hne by (intros ->; discriminate).
  assert (Frame.nrows df2 = Frame.nrows df) as Hrows.
  { unfold df2. rewrite FrameFacts.nrows_set.
    - unfold B, A. now rewrite !length_map.
    - right. unfold B, A. rewrite !length_map.
      rewrite FrameFacts.nrows_set; [now rewrite length_map|].
      right. now rewrite length_map. }
  destruct (IsolationForest_fit_predict (forest c) (np_random w1)
              [("level_score", ls); ("message_length", ml)])
    as [res g2] eqn:Hfit2.
  assert (res = Ok preds) as ->.
  { rewrite <- Hfit.
    change res with (fst (res, g2)). rewrite <- Hfit2.
    apply Hseeded. discriminate. }
  eexists. split.
  - exact (detect_anomalies_run w1 r df2 c ls ml preds g2 Hr1 Hls2 Hml2 Hfit2
             ltac:(congruence)).
  - cbn [heap stdout]. fold A. fold B.
    rewrite (set_col_same df2 "anomaly" A HA).
    rewrite (set_col_same df2 "is_anomaly" B HB).
    split; [now apply insert_id|reflexivity].
Qed.

End DetectAgain.

Lemma detect_anomalies_again_witness :
  exists w1 w2,
    @detect_anomalies StandIn.sklearn 0 (1 # 10)
      (StandIn.holding 0 StandIn.mixed_vectors 0) = (Ok 0, w1)
    /\ @detect_anomalies StandIn.sklearn 0 (1 # 10) w1 = (Ok 0, w2)
    /\ heap w2 = heap w1.
Proof.
  eexists.
  match goal with
  | |- exists w2, detect_anomalies 0 _ ?w0 = (Ok 0, ?w1) /\ _ =>
      destruct (@detect_anomalies_again StandIn.sklearn standin_seeded
                  w0 0 (1 # 10) 0
                  (snd (@detect_anomalies StandIn.sklearn 0 (1 # 10) w0))
                  ltac:(vm_compute; reflexivity))
        as (w2 & Hrun & Hheap & _);
      exists w2; split; [vm_compute; reflexivity|split; assumption]
  end.
Defined.
